(** * Dual-backend synchronisation helpers of [src/firebase.ts]

    A shallow embedding of the exported helpers of [src/firebase.ts] (the
    Realtime Database is the fast store, Firestore the durable store), and
    the properties the specification states about them; then the state
    and the handlers of [src/components/LessonView.tsx], and further
    properties of both files.

    The two SDKs are not part of the repository.  They are modelled as two
    key/value stores whose calls may reject: an oracle in the world says
    which SDK calls reject, every call that is issued is recorded, and
    [console.error] appends to a log.  An [async] function is run to
    completion; a rejected [await] is a throw to the enclosing [try].

    The Realtime Database is a map from path strings to objects, Firestore
    a map from document paths (lists of segments) to objects; a stored
    object is never [null].  The snapshots the SDKs push to listeners are
    events from outside, and a caller's callback is known by a number: an
    invocation is recorded, not run. *)

From Stdlib Require Import ZArith String Ascii List.
From stdpp Require Import base option list gmap strings pretty.

Local Open Scope string_scope.
Local Open Scope list_scope.
Local Open Scope Z_scope.

(** ** Data *)

(** Field values of a stored object; only top-level fields are inspected. *)
Inductive value : Type :=
  | VNull
  | VBool (b : bool)
  | VNum (n : Z)
  | VStr (s : string).

Global Instance value_eq_dec : EqDecision value.
Proof. solve_decision. Defined.

(** A payload ([any] in the source) is a JS object: field name to value. *)
Abbreviation Payload := (gmap string value).

(** A user object: [user.id] is its string identifier, and the object that
    is stored is the whole user, identifier included. *)
Record User : Type := mkUser { id : string; attrs : Payload }.

Definition user_object (user : User) : Payload :=
  <["id" := VStr (id user)]> (attrs user).

(** A test attempt: [attempt.testId] and the rest of the object. *)
Record Attempt : Type := mkAttempt { testId : string; answers : Payload }.

Definition attempt_object (attempt : Attempt) : Payload :=
  <["testId" := VStr (testId attempt)]> (answers attempt).

(** The SDK calls the helpers issue.  A Realtime Database reference is its
    path string, a Firestore reference the list of its path segments. *)
Inductive call : Type :=
  | RtdbSet (path : string)
  | RtdbGet (path : string)
  | RtdbUpdate (path : string)
  | RtdbOnValue (path : string)
  | RtdbOnValueOnce (path : string)
  | SetDoc (path : list string)
  | GetDoc (path : list string)
  | OnSnapshot (path : list string).

Global Instance call_eq_dec : EqDecision call.
Proof. solve_decision. Defined.

(** What a subscriber's callback receives. *)
Inductive delivery : Type :=
  | Users (users : list Payload)
  | Data (data : Payload).

(** The listeners the helpers hand to the SDKs; [cb] names the caller's
    callback. *)
Inductive listener : Type :=
  | UsersListener (cb : nat)
  | SettingsListener (cb : nat)
  | ChapterListener (key : string) (cb : nat).

(** The function a subscribe helper returns: [() => {}] or the SDK's
    unsubscribe function for the listener it registered. *)
Inductive Unsubscribe : Type :=
  | NoOp
  | Detach (handle : nat).

(** The module state ([db], [rtdb]: [true] when the handle is not null), the
    contents of the two stores, the environment (rejecting calls, clock) and
    what the helpers did (calls issued, console, callbacks invoked). *)
Record World : Type := mkWorld {
  db : bool;
  rtdb : bool;
  fast : gmap string Payload;
  durable : gmap (list string) Payload;
  rejects : call -> bool;
  clock : Z;
  listeners : list (nat * listener);
  next_handle : nat;
  issued : list call;
  console : list string;
  delivered : list (nat * delivery)
}.

Definition set_fast (f : gmap string Payload) (w : World) : World :=
  mkWorld (db w) (rtdb w) f (durable w) (rejects w) (clock w)
          (listeners w) (next_handle w) (issued w) (console w) (delivered w).

Definition set_durable (d : gmap (list string) Payload) (w : World) : World :=
  mkWorld (db w) (rtdb w) (fast w) d (rejects w) (clock w)
          (listeners w) (next_handle w) (issued w) (console w) (delivered w).

Definition set_rejects (r : call -> bool) (w : World) : World :=
  mkWorld (db w) (rtdb w) (fast w) (durable w) r (clock w)
          (listeners w) (next_handle w) (issued w) (console w) (delivered w).

Definition set_clock (t : Z) (w : World) : World :=
  mkWorld (db w) (rtdb w) (fast w) (durable w) (rejects w) t
          (listeners w) (next_handle w) (issued w) (console w) (delivered w).

Definition set_listeners (ls : list (nat * listener)) (n : nat) (w : World) : World :=
  mkWorld (db w) (rtdb w) (fast w) (durable w) (rejects w) (clock w)
          ls n (issued w) (console w) (delivered w).

Definition record_call (c : call) (w : World) : World :=
  mkWorld (db w) (rtdb w) (fast w) (durable w) (rejects w) (clock w)
          (listeners w) (next_handle w) (issued w ++ [c]) (console w) (delivered w).

Definition record_console (msg : string) (w : World) : World :=
  mkWorld (db w) (rtdb w) (fast w) (durable w) (rejects w) (clock w)
          (listeners w) (next_handle w) (issued w) (console w ++ [msg]) (delivered w).

Definition record_delivery (cb : nat) (d : delivery) (w : World) : World :=
  mkWorld (db w) (rtdb w) (fast w) (durable w) (rejects w) (clock w)
          (listeners w) (next_handle w) (issued w) (console w) (delivered w ++ [(cb, d)]).

(** ** Module initialisation (lines 27-41)

    One [try] block assigns every handle; its [catch] resets all of them. *)
Definition initialize (sdk_ok : bool) (w : World) : World :=
  mkWorld sdk_ok sdk_ok (fast w) (durable w) (rejects w) (clock w)
          (listeners w) (next_handle w) (issued w)
          (if sdk_ok then console w
           else console w ++ ["CRITICAL: Firebase Initialization Failed"])
          (delivered w).

(** ** Computations that may throw *)

Inductive outcome (A : Type) : Type :=
  | Returned (a : A)
  | Threw.
Arguments Returned {A} a.
Arguments Threw {A}.

Definition M (A : Type) : Type := World -> outcome A * World.

Definition ret {A} (a : A) : M A := fun w => (Returned a, w).

Definition bind {A B} (m : M A) (k : A -> M B) : M B :=
  fun w => match m w with
           | (Returned a, w') => k a w'
           | (Threw, w') => (Threw, w')
           end.

(** [try body catch handler] *)
Definition try_catch {A} (body : M A) (handler : M A) : M A :=
  fun w => match body w with
           | (Returned a, w') => (Returned a, w')
           | (Threw, w') => handler w'
           end.

Declare Scope js_scope.
Delimit Scope js_scope with js.
Notation "x <- m ;; k" := (bind m (fun x => k))
  (at level 100, m at next level, right associativity) : js_scope.
Notation "m ;; k" := (bind m (fun _ => k))
  (at level 100, right associativity) : js_scope.
Local Open Scope js_scope.

Definition result {A} (m : M A) (w : World) : outcome A := fst (m w).
Definition after {A} (m : M A) (w : World) : World := snd (m w).

(** [!db || !rtdb] *)
Definition unready (w : World) : bool := negb (db w) || negb (rtdb w).

Definition console_error (msg : string) : M unit :=
  fun w => (Returned tt, record_console msg w).

(** ** The SDK calls *)

(** An SDK call is recorded as issued; it rejects when the oracle says so,
    and takes effect otherwise. *)
Definition sdk {A} (c : call) (effect : World -> A * World) : M A :=
  fun w =>
    let w1 := record_call c w in
    if rejects w c then (Threw, w1)
    else let (a, w2) := effect w1 in (Returned a, w2).

(** [set(ref(rtdb, path), data)] *)
Definition rtdb_set (path : string) (data : Payload) : M unit :=
  sdk (RtdbSet path) (fun w => (tt, set_fast (<[path := data]> (fast w)) w)).

(** [get(ref(rtdb, path))]: [Some] is a snapshot that [exists()]. *)
Definition rtdb_get (path : string) : M (option Payload) :=
  sdk (RtdbGet path) (fun w => (fast w !! path, w)).

(** [update(ref(rtdb, path), fields)]: the named fields are written and
    the others of the object at [path] are kept. *)
Definition rtdb_update (path : string) (fields : Payload) : M unit :=
  sdk (RtdbUpdate path)
      (fun w => (tt, set_fast (<[path := fields ∪ default ∅ (fast w !! path)]> (fast w)) w)).

(** [update(ref(rtdb, path), updates)] with a map of children: one call
    that writes each child [path/key]. *)
Definition rtdb_update_children (path : string) (updates : gmap string Payload) : M unit :=
  sdk (RtdbUpdate path)
      (fun w => (tt, set_fast
                       (foldr (fun kv f => <[path +:+ "/" +:+ kv.1 := kv.2]> f)
                              (fast w) (map_to_list updates)) w)).

(** [setDoc(doc(db, ...path), data)] *)
Definition setDoc (path : list string) (data : Payload) : M unit :=
  sdk (SetDoc path) (fun w => (tt, set_durable (<[path := data]> (durable w)) w)).

(** [getDoc(doc(db, ...path))]: [Some] is a snapshot that [exists()]. *)
Definition getDoc (path : list string) : M (option Payload) :=
  sdk (GetDoc path) (fun w => (durable w !! path, w)).

(** ** 1. User data sync *)

(** [saveUserToLive] (lines 59-71) *)
Definition saveUserToLive (user : User) : M unit :=
  fun w =>
    if unready w then (Returned tt, w)
    else try_catch
           (rtdb_set ("users/" +:+ id user) (user_object user) ;;
            setDoc ["users"; id user] (user_object user))
           (console_error "Error saving user:") w.

(** [getUserData] (lines 93-106); [None] is [null]. *)
Definition getUserData (userId : string) : M (option Payload) :=
  fun w =>
    if unready w then (Returned None, w)
    else try_catch
           (snap <- rtdb_get ("users/" +:+ userId) ;;
            match snap with
            | Some val => ret (Some val)
            | None =>
                docSnap <- getDoc ["users"; userId] ;;
                match docSnap with
                | Some data => ret (Some data)
                | None => ret None
                end
            end)
           (console_error "(error)" ;; ret None) w.

(** The children of [path] in the Realtime Database, as
    [Object.values(snap.val())] lists them. *)
Definition children (path : string) (f : gmap string Payload) : list Payload :=
  (List.filter (fun kv => String.prefix (path +:+ "/") kv.1) (map_to_list f)).*2.

(** The snapshot listener of [subscribeToUsers] (lines 77-90), run on the
    documents of one snapshot.  The one-shot [onValue] has no cancel
    callback: when it rejects nothing is delivered. *)
Definition users_listener (cb : nat) (docs : list Payload) (w : World) : World :=
  match docs with
  | _ :: _ => record_delivery cb (Users docs) w
  | [] =>
      let w1 := record_call (RtdbOnValueOnce "users") w in
      if rejects w (RtdbOnValueOnce "users") then w1
      else record_delivery cb (Users (children "users" (fast w1))) w1
  end.

(** [onSnapshot] and [onValue]: the listener is registered under a fresh
    handle, which the returned unsubscribe function detaches. *)
Definition register (c : call) (l : listener) (w : World) : Unsubscribe * World :=
  (Detach (next_handle w),
   set_listeners (listeners w ++ [(next_handle w, l)]) (S (next_handle w))
                 (record_call c w)).

(** [subscribeToUsers] (lines 73-91) *)
Definition subscribeToUsers (callback : nat) (w : World) : Unsubscribe * World :=
  if unready w then (NoOp, w)
  else register (OnSnapshot ["users"]) (UsersListener callback) w.

(** ** 2. System settings sync *)

(** [saveSystemSettings] (lines 121-129) *)
Definition saveSystemSettings (settings : Payload) : M unit :=
  fun w =>
    if unready w then (Returned tt, w)
    else try_catch
           (rtdb_set "system_settings" settings ;;
            setDoc ["config"; "system_settings"] settings)
           (console_error "Error saving settings:") w.

(** The snapshot listener of [subscribeToSettings] (lines 134-144). *)
Definition settings_listener (cb : nat) (docSnap : option Payload) (w : World) : World :=
  match docSnap with
  | Some data => record_delivery cb (Data data) w
  | None =>
      let w1 := record_call (RtdbOnValueOnce "system_settings") w in
      if rejects w (RtdbOnValueOnce "system_settings") then w1
      else match fast w1 !! "system_settings" with
           | Some data => record_delivery cb (Data data) w1
           | None => w1
           end
  end.

(** [subscribeToSettings] (lines 131-145) *)
Definition subscribeToSettings (callback : nat) (w : World) : Unsubscribe * World :=
  if unready w then (NoOp, w)
  else register (OnSnapshot ["config"; "system_settings"]) (SettingsListener callback) w.

(** ** 3. Content links sync *)

(** [Promise.all] over promises that were all started: every one runs to
    its end, and the whole rejects when one of them rejected. *)
Fixpoint promise_all (promises : list (M unit)) : M unit :=
  match promises with
  | [] => ret tt
  | p :: rest =>
      fun w =>
        let (r, w1) := p w in
        let (r', w2) := promise_all rest w1 in
        (match r, r' with
         | Returned _, Returned _ => Returned tt
         | _, _ => Threw
         end, w2)
  end.

(** [bulkSaveLinks] (lines 148-164); [updates] is the map key -> data.  The
    per-key writes are all started before any is awaited; the source starts
    them in the order of [Object.entries(updates)], and a [gmap] keeps no
    insertion order, so the order in which they appear among the issued
    calls is not the source's: the properties speak of them up to order. *)
Definition bulkSaveLinks (updates : gmap string Payload) : M unit :=
  fun w =>
    if unready w then (Returned tt, w)
    else try_catch
           (rtdb_update_children "content_links" updates ;;
            promise_all
              (List.map (fun kv => setDoc ["content_data"; kv.1] kv.2)
                        (map_to_list updates)))
           (console_error "Error bulk saving links:") w.

(** ** 4. Chapter data sync *)

(** [saveChapterData] (lines 167-175) *)
Definition saveChapterData (key : string) (data : Payload) : M unit :=
  fun w =>
    if unready w then (Returned tt, w)
    else try_catch
           (rtdb_set ("content_data/" +:+ key) data ;;
            setDoc ["content_data"; key] data)
           (console_error "Error saving chapter data:") w.

(** [getChapterData] (lines 177-197) *)
Definition getChapterData (key : string) : M (option Payload) :=
  fun w =>
    if unready w then (Returned None, w)
    else try_catch
           (snapshot <- rtdb_get ("content_data/" +:+ key) ;;
            match snapshot with
            | Some val => ret (Some val)
            | None =>
                docSnap <- getDoc ["content_data"; key] ;;
                match docSnap with
                | Some data => ret (Some data)
                | None => ret None
                end
            end)
           (console_error "Error getting chapter data:" ;; ret None) w.

(** The value listener of [subscribeToChapterData] (lines 203-213).  The
    promise of [getDoc] has no rejection handler. *)
Definition chapter_listener (key : string) (cb : nat) (snapshot : option Payload)
    (w : World) : World :=
  match snapshot with
  | Some val => record_delivery cb (Data val) w
  | None =>
      match getDoc ["content_data"; key] w with
      | (Returned (Some data), w1) => record_delivery cb (Data data) w1
      | (_, w1) => w1
      end
  end.

(** [subscribeToChapterData] (lines 200-214) *)
Definition subscribeToChapterData (key : string) (callback : nat) (w : World)
    : Unsubscribe * World :=
  if unready w then (NoOp, w)
  else register (RtdbOnValue ("content_data/" +:+ key)) (ChapterListener key callback) w.

(** ** Test results and user activity *)

(** [Date.now()] *)
Definition date_now : M Z := fun w => (Returned (clock w), w).

(** [`${testId}_${now}`] *)
Definition test_result_id (testId : string) (now : Z) : string :=
  testId +:+ "_" +:+ pretty now.

(** [saveTestResult] (lines 217-223) *)
Definition saveTestResult (userId : string) (attempt : Attempt) : M unit :=
  fun w =>
    if negb (db w) then (Returned tt, w)
    else try_catch
           (now <- date_now ;;
            let docId := test_result_id (testId attempt) now in
            setDoc ["users"; userId; "test_results"; docId] (attempt_object attempt))
           (console_error "(error)") w.

Section Runtime.

(** [Date.prototype.toISOString], applied to the milliseconds of a date. *)
Variable toISOString : Z -> string.

(** [updateUserStatus] (lines 225-232); the [catch] block is empty. *)
Definition updateUserStatus (userId : string) (time : Z) : M unit :=
  fun w =>
    if negb (rtdb w) then (Returned tt, w)
    else try_catch
           (now <- date_now ;;
            rtdb_update ("users/" +:+ userId)
                        {[ "lastActiveTime" := VStr (toISOString now) ]})
           (ret tt) w.

End Runtime.

(** ** Store events and subscriptions *)

(** What the SDKs push to the registered listeners, and what the rest of
    the world does to the stores in between. *)
Inductive event : Type :=
  | UsersSnapshot (docs : list Payload)
  | SettingsSnapshot (docSnap : option Payload)
  | ChapterValue (key : string) (snapshot : option Payload)
  | StoresChanged (f : gmap string Payload) (d : gmap (list string) Payload)
                  (r : call -> bool).

(** One listener reacting to one event. *)
Definition react (e : event) (l : listener) (w : World) : World :=
  match e, l with
  | UsersSnapshot docs, UsersListener cb => users_listener cb docs w
  | SettingsSnapshot docSnap, SettingsListener cb => settings_listener cb docSnap w
  | ChapterValue key snapshot, ChapterListener key' cb =>
      if decide (key = key') then chapter_listener key' cb snapshot w else w
  | _, _ => w
  end.

(** The listeners reached by one event, one after the other. *)
Definition react_all (e : event) (ls : list (nat * listener)) (w : World) : World :=
  fold_left (fun w' hl => react e hl.2 w') ls w.

(** An event reaches every listener registered when it occurs. *)
Definition deliver (e : event) (w : World) : World :=
  match e with
  | StoresChanged f d r => set_rejects r (set_durable d (set_fast f w))
  | _ => react_all e (listeners w) w
  end.

Definition run (events : list event) (w : World) : World :=
  fold_left (fun w' e => deliver e w') events w.

(** Calling the function a subscribe helper returned. *)
Definition cancel (u : Unsubscribe) (w : World) : World :=
  match u with
  | NoOp => w
  | Detach h =>
      set_listeners (List.filter (fun hl => negb (Nat.eqb hl.1 h)) (listeners w))
                    (next_handle w) w
  end.

(** ** The module handles, step by step (lines 21-47) *)

Module Init.

(** The SDK calls of the initialisation [try] block, in their order. *)
Inductive step : Type :=
  | InitializeApp
  | GetAnalytics
  | GetFirestore
  | GetDatabase
  | GetAuth.

(** The module variables; [true] is a handle, [false] is [undefined] or
    [null]. *)
Record Handles : Type := mkHandles {
  app : bool;
  analytics : bool;
  db : bool;
  rtdb : bool;
  auth : bool
}.

(** [let app; let analytics; let db; let rtdb; let auth;] *)
Definition declared : Handles := mkHandles false false false false false.

(** The assignment of one step. *)
Definition assign (s : step) (h : Handles) : Handles :=
  match s with
  | InitializeApp => mkHandles true (analytics h) (db h) (rtdb h) (auth h)
  | GetAnalytics => mkHandles (app h) true (db h) (rtdb h) (auth h)
  | GetFirestore => mkHandles (app h) (analytics h) true (rtdb h) (auth h)
  | GetDatabase => mkHandles (app h) (analytics h) (db h) true (auth h)
  | GetAuth => mkHandles (app h) (analytics h) (db h) (rtdb h) true
  end.

(** The [try] block: the steps run in order up to the first that throws;
    the boolean says whether one threw. *)
Fixpoint try_steps (throws : step -> bool) (steps : list step) (h : Handles)
    : Handles * bool :=
  match steps with
  | [] => (h, false)
  | s :: rest => if throws s then (h, true) else try_steps throws rest (assign s h)
  end.

(** The [catch] block: [app = null; db = null; rtdb = null; auth = null]. *)
Definition reset (h : Handles) : Handles :=
  mkHandles false (analytics h) false false false.

(** The handles once the module is loaded. *)
Definition load (throws : step -> bool) : Handles :=
  let (h, threw) :=
    try_steps throws [InitializeApp; GetAnalytics; GetFirestore; GetDatabase; GetAuth]
              declared in
  if threw then reset h else h.

(** [checkFirebaseConnection] (lines 45-47): [!!app] *)
Definition checkFirebaseConnection (h : Handles) : bool := app h.

End Init.

(** The [try] block of the initialisation (lines 27-33): the handles it had
    assigned when it ended, and whether it ended by a throw. *)
Definition load_attempt (throws : Init.step -> bool) : Init.Handles * bool :=
  Init.try_steps throws
    [Init.InitializeApp; Init.GetAnalytics; Init.GetFirestore; Init.GetDatabase;
     Init.GetAuth]
    Init.declared.

(** The world once the module is loaded, [throws] saying which initialisation
    calls throw: [db] and [rtdb] are the handles the load leaves, and the
    [catch] block, when it ran, logged the failure (line 34). *)
Definition loaded (throws : Init.step -> bool) (w : World) : World :=
  mkWorld (Init.db (Init.load throws)) (Init.rtdb (Init.load throws))
          (fast w) (durable w) (rejects w) (clock w)
          (listeners w) (next_handle w) (issued w)
          (if (load_attempt throws).2
           then console w ++ ["CRITICAL: Firebase Initialization Failed"]
           else console w)
          (delivered w).

(** ** Queries on the durable store *)

(** The documents of collection [coll]: those whose path is the collection
    name and one identifier. *)
Definition in_collection (coll : string) (path : list string) : bool :=
  match path with
  | [c; _] => bool_decide (c = coll)
  | _ => false
  end.

(** [getDocs(query(collection(db, coll), where(field, "==", v)))]: the data
    of the matching documents.  [rejected] is whether this call rejects; the
    order among several matches is the store's. *)
Definition getDocs_where (rejected : bool) (coll field : string) (v : value)
    : M (list Payload) :=
  fun w =>
    if rejected then (Threw, w)
    else (Returned
            (List.filter (fun pd => in_collection coll pd.1
                                    && bool_decide (pd.2 !! field = Some v))
                         (map_to_list (durable w))).*2, w).

(** [getUserByEmail] (lines 108-118) *)
Definition getUserByEmail (rejected : bool) (email : string) : M (option Payload) :=
  fun w =>
    if negb (db w) then (Returned None, w)
    else try_catch
           (querySnapshot <- getDocs_where rejected "users" "email" (VStr email) ;;
            match querySnapshot with
            | data :: _ => ret (Some data)
            | [] => ret None
            end)
           (console_error "(error)" ;; ret None) w.

(** ** Vocabulary of the properties *)

(** The stores a dual write [try { set(p, data); setDoc(d, data) }] leaves
    behind, and the calls it issued. *)
Definition dual_write_calls (w : World) (p : string) (d : list string) : list call :=
  RtdbSet p :: (if rejects w (RtdbSet p) then [] else [SetDoc d]).

Definition dual_write_fast (w : World) (p : string) (data : Payload)
    : gmap string Payload :=
  if rejects w (RtdbSet p) then fast w else <[p := data]> (fast w).

Definition dual_write_durable (w : World) (p : string) (d : list string)
    (data : Payload) : gmap (list string) Payload :=
  if rejects w (RtdbSet p) || rejects w (SetDoc d) then durable w
  else <[d := data]> (durable w).

Definition dual_write_console (w : World) (p : string) (d : list string)
    (msg : string) : list string :=
  if rejects w (RtdbSet p) || rejects w (SetDoc d) then [msg] else [].

(** What a read [try { get(p); getDoc(d) }] returns and the calls it issues:
    a rejected fast read ends it, and only a fast read that finds nothing
    goes on to the durable store. *)
Definition fallback_read (w : World) (p : string) (d : list string) : option Payload :=
  if rejects w (RtdbGet p) then None
  else match fast w !! p with
       | Some val => Some val
       | None => if rejects w (GetDoc d) then None else durable w !! d
       end.

Definition fallback_read_calls (w : World) (p : string) (d : list string) : list call :=
  RtdbGet p ::
    (if rejects w (RtdbGet p) then []
     else match fast w !! p with
          | Some _ => []
          | None => [GetDoc d]
          end).

Definition fallback_read_console (w : World) (p : string) (d : list string)
    (msg : string) : list string :=
  if rejects w (RtdbGet p) then [msg]
  else match fast w !! p with
       | Some _ => []
       | None => if rejects w (GetDoc d) then [msg] else []
       end.

(** The per-key durable writes of [bulkSaveLinks], all started and then
    awaited together. *)
Definition durable_fan_out (entries : list (string * Payload)) : M unit :=
  promise_all (List.map (fun kv => setDoc ["content_data"; kv.1] kv.2) entries).

(** [has_char c s]: the character [c] occurs in [s]. *)
Fixpoint has_char (c : ascii) (s : string) : Prop :=
  match s with
  | EmptyString => False
  | String c' s' => c = c' \/ has_char c s'
  end.

(** The callback a listener invokes. *)
Definition listener_cb (l : listener) : nat :=
  match l with
  | UsersListener cb => cb
  | SettingsListener cb => cb
  | ChapterListener _ cb => cb
  end.

(** The invocations of callback [cb] so far. *)
Definition deliveries_to (cb : nat) (w : World) : list (nat * delivery) :=
  List.filter (fun d => Nat.eqb d.1 cb) (delivered w).

(** The one-shot fast-store reads of the users collection issued so far. *)
Definition fallback_reads (w : World) : nat :=
  count_occ call_eq_dec (issued w) (RtdbOnValueOnce "users").

(** The empty snapshots of the users collection among some events. *)
Definition is_empty_snapshot (e : event) : bool :=
  match e with
  | UsersSnapshot [] => true
  | _ => false
  end.

Definition empty_snapshots (events : list event) : nat :=
  length (List.filter is_empty_snapshot events).

(** ** Sample data for the concrete cases *)

(** The oracle under which exactly the calls of [cs] reject. *)
Definition rejecting (cs : list call) : call -> bool :=
  fun c => bool_decide (c ∈ cs).

(** [Date.prototype.toISOString] on the milliseconds since the epoch: the
    civil date of the day number and the time of day, in UTC. *)
Fixpoint zeros (n : nat) : string :=
  match n with
  | O => ""
  | S n' => "0" +:+ zeros n'
  end.

Definition pad (width : nat) (n : Z) : string :=
  zeros (width - String.length (pretty n)) +:+ pretty n.

Definition utc_iso_string (ms : Z) : string :=
  let rest := ms `mod` 86400000 in
  let z := ms `div` 86400000 + 719468 in
  let era := z `div` 146097 in
  let doe := z - era * 146097 in
  let yoe := (doe - doe `div` 1460 + doe `div` 36524 - doe `div` 146096) `div` 365 in
  let doy := doe - (365 * yoe + yoe `div` 4 - yoe `div` 100) in
  let mp := (5 * doy + 2) `div` 153 in
  let d := doy - (153 * mp + 2) `div` 5 + 1 in
  let m := if mp <? 10 then mp + 3 else mp - 9 in
  let y := yoe + era * 400 + (if m <=? 2 then 1 else 0) in
  let year := if (0 <=? y) && (y <=? 9999) then pad 4 y
              else (if y <? 0 then "-" else "+") +:+ pad 6 (Z.abs y) in
  year +:+ "-" +:+ pad 2 m +:+ "-" +:+ pad 2 d
    +:+ "T" +:+ pad 2 (rest `div` 3600000)
    +:+ ":" +:+ pad 2 ((rest `div` 60000) `mod` 60)
    +:+ ":" +:+ pad 2 ((rest `div` 1000) `mod` 60)
    +:+ "." +:+ pad 3 (rest `mod` 1000) +:+ "Z".

(** Both handles set, both stores empty, nothing rejects. *)
Definition ready_world : World :=
  mkWorld true true ∅ ∅ (rejecting []) 1700000000000 [] 0 [] [] [].

(** Neither handle was set at initialisation. *)
Definition unready_world : World :=
  mkWorld false false ∅ ∅ (rejecting []) 1700000000000 [] 0 [] [] [].



Definition ann : User := mkUser "u1" {[ "name" := VStr "Ann" ]}.

Definition dark : Payload := {[ "theme" := VStr "dark" ]}.

Definition light : Payload := {[ "theme" := VStr "light" ]}.

(** A batch of two chapters. *)
Definition two_links : gmap string Payload := {[ "a" := dark; "b" := light ]}.

(** Two submissions of the same quiz. *)
Definition first_try : Attempt := mkAttempt "quiz" {[ "score" := VNum 1 ]}.
Definition second_try : Attempt := mkAttempt "quiz" {[ "score" := VNum 2 ]}.

(** Only the durable store holds the user and the chapter; the fast-store
    reads reject. *)
Definition fast_reads_reject : World :=
  set_rejects (rejecting [RtdbGet "users/u1"; RtdbGet "content_data/ch1"])
    (set_durable {[ ["users"; "u1"] := user_object ann;
                    ["content_data"; "ch1"] := dark ]} ready_world).

(** The user is in the fast store only. *)
Definition migrating_world : World :=
  set_fast {[ "users/u1" := user_object ann ]} ready_world.

(** Ann is in both stores. *)
Definition synced_world : World := after (saveUserToLive ann) ready_world.

Definition bob : User := mkUser "u2" {[ "name" := VStr "Bob" ]}.

(** Bob and chapter [ch1] are in the fast store. *)
Definition stocked_world : World :=
  set_fast {[ "users/u2" := user_object bob; "content_data/ch1" := light ]}
           ready_world.

(** Ann, with her email, is in both stores; then the fast store loses its
    copy. *)
Definition ann_mail : User :=
  mkUser "u1" {[ "name" := VStr "Ann"; "email" := VStr "ann@x.org" ]}.

Definition directory_world : World := after (saveUserToLive ann_mail) ready_world.

Definition fast_wiped_world : World := set_fast ∅ directory_world.

(** Both stores are ready and empty and every write is accepted; the
    fast-store reads of user [u1] and of chapter [ch1] reject. *)
Definition fast_reads_fail_world : World :=
  set_rejects (rejecting [RtdbGet "users/u1"; RtdbGet "content_data/ch1"])
              ready_world.

(** ** The lesson view ([src/components/LessonView.tsx])

    The component is embedded as its state, the values it derives from the
    props at each render, the renderer it chooses, and the handlers of the
    elements that renderer puts on screen.  The props stay the same over a
    run of events. *)

Module LessonView.

(** The fields of [MCQItem], of a playlist entry and of [LessonContent] that
    the component reads (their declarations, in [../types], are not among
    the sources).  An optional string that is missing and an empty string
    are both falsy and are not told apart. *)
Record MCQItem : Type := mkMCQItem {
  question : string;
  options : list string;
  correctAnswer : Z;
  explanation : string
}.

Record VideoItem : Type := mkVideoItem { title : string; url : string }.

Record LessonContent : Type := mkLessonContent {
  id : string;
  type : string;
  content : string;
  videoPlaylist : option (list VideoItem);
  mcqData : option (list MCQItem);
  isComingSoon : bool;
  subtitle : string
}.

(** The props the component reads: [content], [chapter.title], [loading]
    and whether [onMCQComplete] is given. *)
Record Props : Type := mkProps {
  lesson : option LessonContent;
  chapterTitle : string;
  loading : bool;
  onMCQComplete : bool
}.

(** The hooks (lines 30-33).  [mcqState] maps a question index to the chosen
    option, or to [null] ([None]). *)
Record State : Type := mkState {
  mcqState : gmap nat (option nat);
  showResults : bool;
  currentVideoIndex : nat;
  isVideoReady : bool
}.

Definition initial : State := mkState ∅ false 0 false.

(** Lines 44-45 *)
Definition isMcq (c : LessonContent) : bool :=
  String.eqb (type c) "MCQ_ANALYSIS" || String.eqb (type c) "MCQ_SIMPLE".

Definition isVideo (c : LessonContent) : bool :=
  String.eqb (type c) "VIDEO_LECTURE".

(** Lines 46-47 *)
Definition isPdf (c : LessonContent) : bool :=
  String.eqb (type c) "PDF_VIEWER" || String.eqb (type c) "PDF_FREE"
  || String.eqb (type c) "PDF_PREMIUM" || String.eqb (type c) "PDF_ULTRA".

Definition isHtml (c : LessonContent) : bool :=
  String.eqb (type c) "NOTES_HTML_FREE" || String.eqb (type c) "NOTES_HTML_PREMIUM".

(** [playlist] (lines 51-53) *)
Definition playlist (p : Props) : list VideoItem :=
  match lesson p with
  | None => []
  | Some c =>
      match videoPlaylist c with
      | Some (v :: vs) => v :: vs
      | _ => if String.eqb (content c) "" then []
             else [mkVideoItem (chapterTitle p) (content c)]
      end
  end.

(** [currentVideo] (line 55); [None] is [null]. *)
Definition currentVideo (p : Props) (st : State) : option VideoItem :=
  playlist p !! currentVideoIndex st.

(** [isAnswered] (line 131) *)
Definition isAnswered (st : State) (idx : nat) : bool :=
  match mcqState st !! idx with
  | Some (Some _) => true
  | _ => false
  end.

(** [mcqState[qIdx] === content.mcqData[qIdx].correctAnswer] *)
Definition isCorrect (answer : option nat) (q : MCQItem) : bool :=
  match answer with
  | Some oIdx => Z.eqb (Z.of_nat oIdx) (correctAnswer q)
  | None => false
  end.

(** [score] (lines 102-105): the reduction over the keys of [mcqState];
    [None] when a key is no index of [mcqData], where reading
    [correctAnswer] throws. *)
Definition score (data : list MCQItem) (answers : gmap nat (option nat))
    : option nat :=
  map_fold (fun qIdx answer acc =>
              match data !! qIdx with
              | Some q => (fun n => n + (if isCorrect answer q then 1 else 0))%nat <$> acc
              | None => None
              end)
           (Some 0%nat) answers.

(** The renderer the component returns.  The PDF renderer stands for both
    of its layouts (embedded frame and external link). *)
Inductive view : Type :=
  | LoadingContent
  | ContentUnavailable
  | ComingSoon
  | McqTest (data : list MCQItem) (score : nat)
  | VideoUnavailable
  | VideoPlayer (video : VideoItem)
  | InvalidPdfLink
  | PdfViewer
  | NoContentAvailable
  | HtmlNotes
  | MarkdownNotes.

(** The render (lines 57-436), in the order of its [if]s; [None] when it
    throws. *)
Definition render (p : Props) (st : State) : option view :=
  if loading p then Some LoadingContent
  else match lesson p with
       | None => Some ContentUnavailable
       | Some c =>
           if isComingSoon c then Some ComingSoon
           else
             match (if isMcq c then mcqData c else None) with
             | Some data => McqTest data <$> score data (mcqState st)
             | None =>
                 if isVideo c then
                   match currentVideo p st with
                   | Some video => Some (VideoPlayer video)
                   | None => Some VideoUnavailable
                   end
                 else if isPdf c then
                   if String.eqb (content c) "" then Some InvalidPdfLink
                   else Some PdfViewer
                 else if isHtml c then
                   if String.eqb (content c) "" then Some NoContentAvailable
                   else Some HtmlNotes
                 else Some MarkdownNotes
             end
       end.

(** What the user and the player can do. *)
Inductive event : Type :=
  | ClickOption (idx oIdx : nat)
  | ClickFinish
  | VideoEnded
  | ClickPlaylistItem (idx : nat).

Definition set_mcqState (m : gmap nat (option nat)) (st : State) : State :=
  mkState m (showResults st) (currentVideoIndex st) (isVideoReady st).

Definition set_showResults (b : bool) (st : State) : State :=
  mkState (mcqState st) b (currentVideoIndex st) (isVideoReady st).

Definition set_currentVideoIndex (i : nat) (st : State) : State :=
  mkState (mcqState st) (showResults st) i (isVideoReady st).

(** One event: the new state and the scores passed to [onMCQComplete].  An
    event whose element is not on screen, or is disabled, changes nothing.
    - option button [oIdx] of question [idx] (lines 163-167): disabled once
      the question is answered or the results are shown;
    - the submit button (lines 199-208): on screen until the results are
      shown, disabled while nothing is answered; [handleFinish] is lines
      107-110;
    - [onEnded] of the player (lines 252-256);
    - item [idx] of the playlist sidebar (lines 267-276): on screen when the
      playlist has more than one video. *)
Definition step (p : Props) (st : State) (e : event) : State * list nat :=
  match render p st, e with
  | Some (McqTest data n), ClickOption idx oIdx =>
      match data !! idx with
      | Some q =>
          if (oIdx <? length (options q))%nat
             && negb (isAnswered st idx || showResults st)
          then (set_mcqState (<[idx := Some oIdx]> (mcqState st)) st, [])
          else (st, [])
      | None => (st, [])
      end
  | Some (McqTest data n), ClickFinish =>
      if negb (showResults st) && negb (size (mcqState st) =? 0)%nat
      then (set_showResults true st, if onMCQComplete p then [n] else [])
      else (st, [])
  | Some (VideoPlayer video), VideoEnded =>
      if (currentVideoIndex st <? length (playlist p) - 1)%nat
      then (set_currentVideoIndex (currentVideoIndex st + 1) st, [])
      else (st, [])
  | Some (VideoPlayer video), ClickPlaylistItem idx =>
      if (1 <? length (playlist p))%nat && (idx <? length (playlist p))%nat
      then (set_currentVideoIndex idx st, [])
      else (st, [])
  | _, _ => (st, [])
  end.

(** A run of events: the last state and every score reported, in order. *)
Fixpoint run (p : Props) (events : list event) (st : State) : State * list nat :=
  match events with
  | [] => (st, [])
  | e :: rest =>
      let (st1, out1) := step p st e in
      let (st2, out2) := run p rest st1 in
      (st2, out1 ++ out2)
  end.

End LessonView.

(** ** Vocabulary of the further properties *)

(** The module state and the environment are the same in two worlds. *)
Definition same_env (w w' : World) : Prop :=
  db w' = db w /\ rtdb w' = rtdb w /\ rejects w' = rejects w
  /\ clock w' = clock w /\ listeners w' = listeners w.

(** The durable-store reads of chapter [key] issued so far. *)
Definition chapter_reads (key : string) (w : World) : nat :=
  count_occ call_eq_dec (issued w) (GetDoc ["content_data"; key]).

(** The fast-store snapshots of chapter [key] that report no value. *)
Definition is_absent_value (key : string) (e : event) : bool :=
  match e with
  | ChapterValue key' None => bool_decide (key' = key)
  | _ => false
  end.

Definition absent_values (key : string) (events : list event) : nat :=
  length (List.filter (is_absent_value key) events).

(** The snapshots of the users collection among some events. *)
Definition is_users_snapshot (e : event) : bool :=
  match e with
  | UsersSnapshot _ => true
  | _ => false
  end.

(** The event does not make the one-shot read of the users reject. *)
Definition keeps_users_fallback (e : event) : bool :=
  match e with
  | StoresChanged _ _ r => negb (r (RtdbOnValueOnce "users"))
  | _ => true
  end.

(** Every recorded answer is an option of a question of the lesson. *)
Definition answers_valid (p : LessonView.Props) (st : LessonView.State) : Prop :=
  forall idx answer,
    LessonView.mcqState st !! idx = Some answer ->
    exists c data q oIdx,
      LessonView.lesson p = Some c
      /\ LessonView.mcqData c = Some data
      /\ data !! idx = Some q
      /\ answer = Some oIdx
      /\ (oIdx < length (LessonView.options q))%nat.

(** A quiz of two questions, and a lecture of two videos. *)
Definition quiz : LessonView.Props :=
  LessonView.mkProps
    (Some (LessonView.mkLessonContent "c1" "MCQ_SIMPLE" "" None
             (Some [LessonView.mkMCQItem "1 + 1" ["1"; "2"; "3"] 1 "";
                    LessonView.mkMCQItem "2 + 2" ["4"; "5"] 0 ""])
             false ""))
    "Sums" false true.

Definition lecture : LessonView.Props :=
  LessonView.mkProps
    (Some (LessonView.mkLessonContent "c2" "VIDEO_LECTURE" ""
             (Some [LessonView.mkVideoItem "Part 1" "https://v/1";
                    LessonView.mkVideoItem "Part 2" "https://v/2"])
             None false ""))
    "Sums" false false.

(** * Properties *)

(** Closes the conjuncts of a concrete case by evaluation. *)
Ltac by_evaluation :=
  repeat apply conj;
  try (vm_compute; reflexivity);
  try (vm_compute; intros [H|[]]; discriminate H);
  try (vm_compute; discriminate).

(** Unfolds a helper down to the SDK calls it makes. *)
Ltac js_unfold :=
  unfold result, after, try_catch, bind, ret, console_error, date_now,
    rtdb_set, rtdb_get, rtdb_update, rtdb_update_children, setDoc, getDoc, sdk;
  simpl.

(** ** Module initialisation *)

(** The two handles are set and reset together: after initialisation the
    fast store is ready exactly when the durable store is. *)
Lemma initialize_ready_together (sdk_ok : bool) (w : World) :
  rtdb (initialize sdk_ok w) = db (initialize sdk_ok w).
Proof. reflexivity. Qed.

(** ** Dual writes *)

(** The body shared by the save helpers. *)
Lemma dual_write_effect (p : string) (d : list string) (data : Payload)
    (msg : string) (w : World) :
  let m := try_catch (rtdb_set p data ;; setDoc d data) (console_error msg) in
  result m w = Returned tt
  /\ issued (after m w) = issued w ++ dual_write_calls w p d
  /\ fast (after m w) = dual_write_fast w p data
  /\ durable (after m w) = dual_write_durable w p d data
  /\ console (after m w) = console w ++ dual_write_console w p d msg
  /\ unready (after m w) = unready w.
Proof.
  unfold dual_write_calls, dual_write_fast, dual_write_durable, dual_write_console.
  js_unfold.
  destruct (rejects w (RtdbSet p)); simpl; [done|].
  destruct (rejects w (SetDoc d)); simpl;
    repeat apply conj; rewrite <- ?app_assoc, ?app_nil_r; done.
Qed.

Lemma saveUserToLive_ready (user : User) (w : World) :
  unready w = false ->
  let p := "users/" +:+ id user in
  let d := ["users"; id user] in
  let m := saveUserToLive user in
  result m w = Returned tt
  /\ issued (after m w) = issued w ++ dual_write_calls w p d
  /\ fast (after m w) = dual_write_fast w p (user_object user)
  /\ durable (after m w) = dual_write_durable w p d (user_object user)
  /\ console (after m w) = console w ++ dual_write_console w p d "Error saving user:"
  /\ unready (after m w) = unready w.
Proof.
  intros Hready p d m.
  pose proof (dual_write_effect p d (user_object user) "Error saving user:" w) as Heff.
  subst m. unfold result, after, saveUserToLive in *. rewrite Hready in Heff |- *. exact Heff.
Qed.

Lemma saveSystemSettings_ready (settings : Payload) (w : World) :
  unready w = false ->
  let p := "system_settings" in
  let d := ["config"; "system_settings"] in
  let m := saveSystemSettings settings in
  result m w = Returned tt
  /\ issued (after m w) = issued w ++ dual_write_calls w p d
  /\ fast (after m w) = dual_write_fast w p settings
  /\ durable (after m w) = dual_write_durable w p d settings
  /\ console (after m w) = console w ++ dual_write_console w p d "Error saving settings:"
  /\ unready (after m w) = unready w.
Proof.
  intros Hready p d m.
  pose proof (dual_write_effect p d settings "Error saving settings:" w) as Heff.
  subst m. unfold result, after, saveSystemSettings in *. rewrite Hready in Heff |- *. exact Heff.
Qed.

Lemma saveChapterData_ready (key : string) (data : Payload) (w : World) :
  unready w = false ->
  let p := "content_data/" +:+ key in
  let d := ["content_data"; key] in
  let m := saveChapterData key data in
  result m w = Returned tt
  /\ issued (after m w) = issued w ++ dual_write_calls w p d
  /\ fast (after m w) = dual_write_fast w p data
  /\ durable (after m w) = dual_write_durable w p d data
  /\ console (after m w)
     = console w ++ dual_write_console w p d "Error saving chapter data:"
  /\ unready (after m w) = unready w.
Proof.
  intros Hready p d m.
  pose proof (dual_write_effect p d data "Error saving chapter data:" w) as Heff.
  subst m. unfold result, after, saveChapterData in *. rewrite Hready in Heff |- *. exact Heff.
Qed.

(** ** Reads with fallback *)

Lemma getUserData_ready (userId : string) (w : World) :
  unready w = false ->
  let p := "users/" +:+ userId in
  let d := ["users"; userId] in
  let m := getUserData userId in
  result m w = Returned (fallback_read w p d)
  /\ issued (after m w) = issued w ++ fallback_read_calls w p d
  /\ console (after m w) = console w ++ fallback_read_console w p d "(error)"
  /\ fast (after m w) = fast w
  /\ durable (after m w) = durable w.
Proof.
  intros Hready p d m. subst p d m.
  unfold result, after, getUserData, fallback_read, fallback_read_calls,
    fallback_read_console.
  rewrite Hready. js_unfold.
  destruct (rejects w (RtdbGet _)); simpl; [done|].
  destruct (fast w !! _); simpl; [by rewrite app_nil_r|].
  destruct (rejects w (GetDoc _)); simpl; [by rewrite <- app_assoc|].
  destruct (durable w !! _); simpl; by rewrite <- app_assoc, app_nil_r.
Qed.

Lemma getChapterData_ready (key : string) (w : World) :
  unready w = false ->
  let p := "content_data/" +:+ key in
  let d := ["content_data"; key] in
  let m := getChapterData key in
  result m w = Returned (fallback_read w p d)
  /\ issued (after m w) = issued w ++ fallback_read_calls w p d
  /\ console (after m w)
     = console w ++ fallback_read_console w p d "Error getting chapter data:"
  /\ fast (after m w) = fast w
  /\ durable (after m w) = durable w.
Proof.
  intros Hready p d m. subst p d m.
  unfold result, after, getChapterData, fallback_read, fallback_read_calls,
    fallback_read_console.
  rewrite Hready. js_unfold.
  destruct (rejects w (RtdbGet _)); simpl; [done|].
  destruct (fast w !! _); simpl; [by rewrite app_nil_r|].
  destruct (rejects w (GetDoc _)); simpl; [by rewrite <- app_assoc|].
  destruct (durable w !! _); simpl; by rewrite <- app_assoc, app_nil_r.
Qed.


(** ** C1 *)

(** C1, as the code has it: with both stores ready, [saveUserToLive] and
    [saveSystemSettings] always issue the fast-store write first and never
    throw; the durable-store write is issued exactly when the fast-store
    write did not reject (a rejected fast write ends the [try] block); a
    rejection of either write is caught and logged, and a rejected durable
    write leaves the fast write in place. *)
Theorem save_failure_handling (user : User) (settings : Payload) (w : World) :
  unready w = false ->
  (result (saveUserToLive user) w = Returned tt
   /\ issued (after (saveUserToLive user) w)
      = issued w ++ RtdbSet ("users/" +:+ id user) ::
          (if rejects w (RtdbSet ("users/" +:+ id user)) then []
           else [SetDoc ["users"; id user]])
   /\ fast (after (saveUserToLive user) w)
      = (if rejects w (RtdbSet ("users/" +:+ id user)) then fast w
         else <["users/" +:+ id user := user_object user]> (fast w))
   /\ console (after (saveUserToLive user) w)
      = console w ++
          (if rejects w (RtdbSet ("users/" +:+ id user))
              || rejects w (SetDoc ["users"; id user])
           then ["Error saving user:"] else []))
  /\ (result (saveSystemSettings settings) w = Returned tt
   /\ issued (after (saveSystemSettings settings) w)
      = issued w ++ RtdbSet "system_settings" ::
          (if rejects w (RtdbSet "system_settings") then []
           else [SetDoc ["config"; "system_settings"]])
   /\ fast (after (saveSystemSettings settings) w)
      = (if rejects w (RtdbSet "system_settings") then fast w
         else <["system_settings" := settings]> (fast w))
   /\ console (after (saveSystemSettings settings) w)
      = console w ++
          (if rejects w (RtdbSet "system_settings")
              || rejects w (SetDoc ["config"; "system_settings"])
           then ["Error saving settings:"] else [])).
Proof.
  intros Hready. split.
  - destruct (saveUserToLive_ready user w Hready) as (Hr & Hi & Hf & _ & Hc & _).
    auto.
  - destruct (saveSystemSettings_ready settings w Hready)
      as (Hr & Hi & Hf & _ & Hc & _).
    auto.
Qed.

(** The durable-store write of the user rejects: the fast-store write
    stands and the failure is logged. *)
Lemma save_failure_handling_witness :
  let w := set_rejects (rejecting [SetDoc ["users"; "u1"]]) ready_world in
  issued (after (saveUserToLive ann) w) = [RtdbSet "users/u1"; SetDoc ["users"; "u1"]]
  /\ fast (after (saveUserToLive ann) w) = {[ "users/u1" := user_object ann ]}
  /\ console (after (saveUserToLive ann) w) = ["Error saving user:"].
Proof.
  intros w.
  destruct (save_failure_handling ann dark w eq_refl) as [(_ & Hi & Hf & Hc) _].
  split; [exact Hi|]. split; [exact Hf | exact Hc].
Defined.

(** C1 fails as stated: both stores are ready and the fast-store write of
    the user rejects, yet no durable-store write is issued (likewise for
    the settings). *)
Lemma save_fast_failure_skips_durable :
  let w := set_rejects (rejecting [RtdbSet "users/u1"; RtdbSet "system_settings"])
                       ready_world in
  unready w = false
  /\ rejects w (RtdbSet "users/u1") = true
  /\ issued (after (saveUserToLive ann) w) = [RtdbSet "users/u1"]
  /\ ~ In (SetDoc ["users"; "u1"]) (issued (after (saveUserToLive ann) w))
  /\ durable (after (saveUserToLive ann) w) = ∅
  /\ rejects w (RtdbSet "system_settings") = true
  /\ ~ In (SetDoc ["config"; "system_settings"])
          (issued (after (saveSystemSettings dark) w)).
Proof. by_evaluation. Qed.

(** ** C3 *)

(** C3, as the code has it: with both stores ready, [getUserData] and
    [getChapterData] log the error and return [null] as soon as the
    fast-store read rejects, without reading the durable store; the durable
    store is read exactly when the fast-store read succeeded and found
    nothing, and then its record is returned, or [null] when it has none or
    its read rejects. *)
Theorem get_failure_handling (k : string) (w : World) :
  unready w = false ->
  (result (getUserData k) w
     = Returned
         (if rejects w (RtdbGet ("users/" +:+ k)) then None
          else match fast w !! ("users/" +:+ k) with
               | Some val => Some val
               | None => if rejects w (GetDoc ["users"; k]) then None
                         else durable w !! ["users"; k]
               end)
   /\ issued (after (getUserData k) w)
     = issued w ++ RtdbGet ("users/" +:+ k) ::
         (if rejects w (RtdbGet ("users/" +:+ k)) then []
          else match fast w !! ("users/" +:+ k) with
               | Some _ => []
               | None => [GetDoc ["users"; k]]
               end)
   /\ (rejects w (RtdbGet ("users/" +:+ k)) = true ->
       console (after (getUserData k) w) = console w ++ ["(error)"]))
  /\ (result (getChapterData k) w
     = Returned
         (if rejects w (RtdbGet ("content_data/" +:+ k)) then None
          else match fast w !! ("content_data/" +:+ k) with
               | Some val => Some val
               | None => if rejects w (GetDoc ["content_data"; k]) then None
                         else durable w !! ["content_data"; k]
               end)
   /\ issued (after (getChapterData k) w)
     = issued w ++ RtdbGet ("content_data/" +:+ k) ::
         (if rejects w (RtdbGet ("content_data/" +:+ k)) then []
          else match fast w !! ("content_data/" +:+ k) with
               | Some _ => []
               | None => [GetDoc ["content_data"; k]]
               end)
   /\ (rejects w (RtdbGet ("content_data/" +:+ k)) = true ->
       console (after (getChapterData k) w)
         = console w ++ ["Error getting chapter data:"])).
Proof.
  intros Hready. split.
  - destruct (getUserData_ready k w Hready) as (Hr & Hi & Hc & _).
    split; [exact Hr|]. split; [exact Hi|].
    intros Hrej. rewrite Hc. unfold fallback_read_console. by rewrite Hrej.
  - destruct (getChapterData_ready k w Hready) as (Hr & Hi & Hc & _).
    split; [exact Hr|]. split; [exact Hi|].
    intros Hrej. rewrite Hc. unfold fallback_read_console. by rewrite Hrej.
Qed.

Lemma get_failure_handling_witness :
  result (getUserData "u1") fast_reads_reject = Returned None
  /\ issued (after (getUserData "u1") fast_reads_reject) = [RtdbGet "users/u1"]
  /\ result (getChapterData "u1") ready_world = Returned None
  /\ issued (after (getChapterData "u1") ready_world)
     = [RtdbGet "content_data/u1"; GetDoc ["content_data"; "u1"]].
Proof.
  destruct (get_failure_handling "u1" fast_reads_reject eq_refl) as [(Hr & Hi & _) _].
  destruct (get_failure_handling "u1" ready_world eq_refl) as [_ (Hr' & Hi' & _)].
  split; [exact Hr | split; [exact Hi | split; [exact Hr' | exact Hi']]].
Defined.

(** C3 fails as stated: the fast-store read rejects, the durable store has
    the record, and the helper returns [null] without a durable read. *)
Lemma get_fast_error_skips_durable :
  unready fast_reads_reject = false
  /\ rejects fast_reads_reject (RtdbGet "users/u1") = true
  /\ durable fast_reads_reject !! ["users"; "u1"] = Some (user_object ann)
  /\ result (getUserData "u1") fast_reads_reject = Returned None
  /\ ~ In (GetDoc ["users"; "u1"]) (issued (after (getUserData "u1") fast_reads_reject))
  /\ rejects fast_reads_reject (RtdbGet "content_data/ch1") = true
  /\ durable fast_reads_reject !! ["content_data"; "ch1"] = Some dark
  /\ result (getChapterData "ch1") fast_reads_reject = Returned None
  /\ ~ In (GetDoc ["content_data"; "ch1"])
          (issued (after (getChapterData "ch1") fast_reads_reject)).
Proof. by_evaluation. Qed.

(** ** C4 *)


(** The load, step by step, leaves the world that [initialize] gives for the
    outcome [checkFirebaseConnection] reports. *)
Lemma loaded_initialize (throws : Init.step -> bool) (w : World) :
  loaded throws w = initialize (Init.checkFirebaseConnection (Init.load throws)) w.
Proof.
  unfold loaded, initialize, load_attempt, Init.load, Init.checkFirebaseConnection.
  simpl.
  repeat (match goal with
          | |- context [throws ?s] => destruct (throws s)
          end; simpl; try reflexivity).
Qed.





(** ** C6 *)

(** C6, as the code has it: with both stores ready, when both writes of a
    save succeed, both stores hold the payload, and the following get returns
    it when its own fast-store read does not reject and [null] when that
    read rejects; [r] is the oracle at the time of the get.  The round trip
    of a user and the round trip of a chapter depend each on its own calls
    only. *)
Theorem save_then_get (user : User) (key : string) (data : Payload)
    (r : call -> bool) (w : World) :
  unready w = false ->
  (rejects w (RtdbSet ("users/" +:+ id user)) = false ->
   rejects w (SetDoc ["users"; id user]) = false ->
   fast (after (saveUserToLive user) w) !! ("users/" +:+ id user)
     = Some (user_object user)
   /\ durable (after (saveUserToLive user) w) !! ["users"; id user]
      = Some (user_object user)
   /\ (r (RtdbGet ("users/" +:+ id user)) = false ->
       result (getUserData (id user)) (set_rejects r (after (saveUserToLive user) w))
       = Returned (Some (user_object user)))
   /\ (r (RtdbGet ("users/" +:+ id user)) = true ->
       result (getUserData (id user)) (set_rejects r (after (saveUserToLive user) w))
       = Returned None))
  /\ (rejects w (RtdbSet ("content_data/" +:+ key)) = false ->
      rejects w (SetDoc ["content_data"; key]) = false ->
      fast (after (saveChapterData key data) w) !! ("content_data/" +:+ key)
        = Some data
      /\ durable (after (saveChapterData key data) w) !! ["content_data"; key]
         = Some data
      /\ (r (RtdbGet ("content_data/" +:+ key)) = false ->
          result (getChapterData key) (set_rejects r (after (saveChapterData key data) w))
          = Returned (Some data))
      /\ (r (RtdbGet ("content_data/" +:+ key)) = true ->
          result (getChapterData key) (set_rejects r (after (saveChapterData key data) w))
          = Returned None)).
Proof.
  intros Hready. split.
  - intros Hfu Hdu.
    destruct (saveUserToLive_ready user w Hready) as (_ & _ & Hf & Hd & _ & Hun).
    unfold dual_write_fast in Hf. unfold dual_write_durable in Hd.
    rewrite Hfu in Hf. rewrite Hfu, Hdu in Hd. simpl in Hd.
    set (w1 := set_rejects r (after (saveUserToLive user) w)).
    assert (unready w1 = false) as Hready1 by (rewrite <- Hready, <- Hun; done).
    destruct (getUserData_ready (id user) w1 Hready1) as (Hr & _).
    split; [rewrite Hf; apply lookup_insert_eq|].
    split; [rewrite Hd; apply lookup_insert_eq|].
    split; intros Hru; rewrite Hr; unfold fallback_read; subst w1; simpl;
      rewrite Hru; [|done].
    by rewrite Hf, lookup_insert_eq.
  - intros Hfc Hdc.
    destruct (saveChapterData_ready key data w Hready) as (_ & _ & Hf & Hd & _ & Hun).
    unfold dual_write_fast in Hf. unfold dual_write_durable in Hd.
    rewrite Hfc in Hf. rewrite Hfc, Hdc in Hd. simpl in Hd.
    set (w1 := set_rejects r (after (saveChapterData key data) w)).
    assert (unready w1 = false) as Hready1 by (rewrite <- Hready, <- Hun; done).
    destruct (getChapterData_ready key w1 Hready1) as (Hr & _).
    split; [rewrite Hf; apply lookup_insert_eq|].
    split; [rewrite Hd; apply lookup_insert_eq|].
    split; intros Hrc; rewrite Hr; unfold fallback_read; subst w1; simpl;
      rewrite Hrc; [|done].
    by rewrite Hf, lookup_insert_eq.
Qed.

(** Nothing rejects: Ann and chapter [ch1] are read back as saved. *)
Lemma save_then_get_witness :
  result (getUserData (id ann))
         (set_rejects (rejecting []) (after (saveUserToLive ann) ready_world))
    = Returned (Some (user_object ann))
  /\ result (getChapterData "ch1")
            (set_rejects (rejecting []) (after (saveChapterData "ch1" dark) ready_world))
    = Returned (Some dark).
Proof.
  destruct (save_then_get ann "ch1" dark (rejecting []) ready_world eq_refl)
    as [Huser Hchapter].
  split.
  - exact (proj1 (proj2 (proj2 (Huser eq_refl eq_refl))) eq_refl).
  - exact (proj1 (proj2 (proj2 (Hchapter eq_refl eq_refl))) eq_refl).
Defined.

(** C6 fails as stated: both stores are ready and both writes of the save
    succeed, so that both stores hold the payload, and the following get
    returns [null] because its fast-store read rejects. *)
Lemma saved_record_unread_on_fast_error :
  unready fast_reads_fail_world = false
  /\ rejects fast_reads_fail_world (RtdbSet "users/u1") = false
  /\ rejects fast_reads_fail_world (SetDoc ["users"; "u1"]) = false
  /\ console (after (saveUserToLive ann) fast_reads_fail_world) = []
  /\ fast (after (saveUserToLive ann) fast_reads_fail_world) !! "users/u1"
     = Some (user_object ann)
  /\ durable (after (saveUserToLive ann) fast_reads_fail_world) !! ["users"; "u1"]
     = Some (user_object ann)
  /\ result (getUserData "u1") (after (saveUserToLive ann) fast_reads_fail_world)
     = Returned None
  /\ result (getUserData "u1") (after (saveUserToLive ann) fast_reads_fail_world)
     <> Returned (Some (user_object ann))
  /\ rejects fast_reads_fail_world (RtdbSet "content_data/ch1") = false
  /\ rejects fast_reads_fail_world (SetDoc ["content_data"; "ch1"]) = false
  /\ durable (after (saveChapterData "ch1" dark) fast_reads_fail_world)
       !! ["content_data"; "ch1"] = Some dark
  /\ result (getChapterData "ch1") (after (saveChapterData "ch1" dark) fast_reads_fail_world)
     = Returned None
  /\ result (getChapterData "ch1") (after (saveChapterData "ch1" dark) fast_reads_fail_world)
     <> Returned (Some dark).
Proof. by_evaluation. Qed.

(** ** C5 *)

Lemma after_setDoc (path : list string) (data : Payload) (w : World) :
  after (setDoc path data) w
    = if rejects w (SetDoc path) then record_call (SetDoc path) w
      else set_durable (<[path := data]> (durable w)) (record_call (SetDoc path) w).
Proof. js_unfold. by destruct (rejects w (SetDoc path)). Qed.

Lemma fan_out_cons (k : string) (p : Payload) (rest : list (string * Payload))
    (w : World) :
  after (durable_fan_out ((k, p) :: rest)) w
    = after (durable_fan_out rest) (after (setDoc ["content_data"; k] p) w).
Proof.
  unfold after, durable_fan_out. simpl.
  destruct (setDoc ["content_data"; k] p w) as [r w1]. simpl.
  by destruct (promise_all _ w1).
Qed.

Lemma fan_out_env (entries : list (string * Payload)) (w : World) :
  rejects (after (durable_fan_out entries) w) = rejects w
  /\ fast (after (durable_fan_out entries) w) = fast w
  /\ issued (after (durable_fan_out entries) w)
     = issued w ++ List.map (fun kv => SetDoc ["content_data"; kv.1]) entries.
Proof.
  revert w. induction entries as [|[k p] rest IH]; intros w.
  - unfold after. simpl. by rewrite app_nil_r.
  - rewrite fan_out_cons.
    destruct (IH (after (setDoc ["content_data"; k] p) w)) as (-> & -> & ->).
    rewrite after_setDoc.
    destruct (rejects w (SetDoc ["content_data"; k])); simpl;
      by rewrite <- app_assoc.
Qed.

(** A document that no entry names is left as it was. *)
Lemma fan_out_frame (entries : list (string * Payload)) (path : list string)
    (w : World) :
  (forall kv, In kv entries -> ["content_data"; kv.1] <> path) ->
  durable (after (durable_fan_out entries) w) !! path = durable w !! path.
Proof.
  revert w. induction entries as [|[k p] rest IH]; intros w Hother; [done|].
  rewrite fan_out_cons, IH by (intros kv Hin; apply Hother; by right).
  rewrite after_setDoc.
  destruct (rejects w (SetDoc ["content_data"; k])); simpl; [done|].
  apply lookup_insert_ne. apply (Hother (k, p)). by left.
Qed.

(** The document of each entry ends as that entry's own write leaves it,
    whatever happens to the writes of the other entries. *)
Lemma fan_out_per_key (entries : list (string * Payload)) (k : string)
    (p : Payload) (w : World) :
  NoDup entries.*1 ->
  In (k, p) entries ->
  durable (after (durable_fan_out entries) w) !! ["content_data"; k]
    = if rejects w (SetDoc ["content_data"; k]) then durable w !! ["content_data"; k]
      else Some p.
Proof.
  revert w. induction entries as [|[k' p'] rest IH]; intros w Hnd Hin; [done|].
  apply NoDup_cons in Hnd as [Hfresh Hnd].
  assert (forall p2, In (k', p2) rest -> False) as Hfresh'.
  { intros p2 Hin2. apply Hfresh. apply list_elem_of_fmap. exists (k', p2).
    split; [done|]. by apply list_elem_of_In. }
  rewrite fan_out_cons.
  destruct Hin as [[= -> ->]|Hin].
  - rewrite fan_out_frame.
    + rewrite after_setDoc.
      destruct (rejects w (SetDoc ["content_data"; k])); simpl; [done|].
      apply lookup_insert_eq.
    + intros [k2 p2] Hin2 [= ->]. by apply (Hfresh' p2).
  - assert (k' <> k) as Hne by (intros ->; by apply (Hfresh' p)).
    rewrite (IH _ Hnd Hin), after_setDoc.
    destruct (rejects w (SetDoc ["content_data"; k'])); simpl; [done|].
    rewrite lookup_insert_ne; [done|]. by intros [= ?].
Qed.

(** C5, as the code has it: with both stores ready, [bulkSaveLinks] never
    throws; when the fast-store bulk update rejects, the failure is logged,
    no durable-store write is issued and both stores are left as they were;
    when it does not reject, the calls issued after it are one durable-store
    write for every key of the batch, in some order, and the document of
    each key ends as that key's own write leaves it (the payload, or the old
    document when that write rejects), whatever happens to the writes of the
    other keys. *)
Theorem bulkSaveLinks_failure_handling (updates : gmap string Payload) (w : World) :
  unready w = false ->
  result (bulkSaveLinks updates) w = Returned tt
  /\ (rejects w (RtdbUpdate "content_links") = true ->
      issued (after (bulkSaveLinks updates) w) = issued w ++ [RtdbUpdate "content_links"]
      /\ durable (after (bulkSaveLinks updates) w) = durable w
      /\ fast (after (bulkSaveLinks updates) w) = fast w
      /\ console (after (bulkSaveLinks updates) w)
         = console w ++ ["Error bulk saving links:"])
  /\ (rejects w (RtdbUpdate "content_links") = false ->
      (exists calls,
         issued (after (bulkSaveLinks updates) w)
           = issued w ++ RtdbUpdate "content_links" :: calls
         /\ Permutation calls
              (List.map (fun kv => SetDoc ["content_data"; kv.1]) (map_to_list updates)))
      /\ forall k p, updates !! k = Some p ->
           In (SetDoc ["content_data"; k]) (issued (after (bulkSaveLinks updates) w))
           /\ durable (after (bulkSaveLinks updates) w) !! ["content_data"; k]
              = if rejects w (SetDoc ["content_data"; k])
                then durable w !! ["content_data"; k]
                else Some p).
Proof.
  intros Hready.
  pose proof (fan_out_env (map_to_list updates)) as Henv.
  pose proof (fun k p => fan_out_per_key (map_to_list updates) k p) as Hkey.
  unfold result, after, bulkSaveLinks, durable_fan_out in *. rewrite Hready.
  js_unfold.
  destruct (rejects w (RtdbUpdate "content_links")) eqn:Hbulk; simpl.
  { split; [done|]. split; [done|]. intros [=]. }
  set (w1 := set_fast _ (record_call _ w)) in *.
  specialize (Henv w1). specialize (fun k p => Hkey k p w1).
  destruct (promise_all _ w1) as [r w2] eqn:Hall. simpl in *.
  destruct Henv as (_ & _ & Hiss).
  split; [by destruct r as [[]|]|]. split; [intros [=]|]. intros _.
  assert (forall k p, updates !! k = Some p -> In (k, p) (map_to_list updates)) as Hin.
  { intros k p Hk. apply list_elem_of_In. by apply elem_of_map_to_list. }
  destruct r as [[]|]; simpl; (split;
    [ eexists; split; [rewrite Hiss, <- app_assoc; reflexivity | reflexivity]
    | intros k p Hk; split;
      [ rewrite Hiss; apply in_or_app; right;
        apply in_map_iff; exists (k, p); split; [done | by apply Hin]
      | exact (Hkey k p (NoDup_fst_map_to_list updates) (Hin k p Hk)) ] ]).
Qed.

(** The durable write of chapter [b] rejects: [a] is still written. *)
Lemma bulkSaveLinks_failure_handling_witness :
  let w := set_rejects (rejecting [SetDoc ["content_data"; "b"]]) ready_world in
  durable (after (bulkSaveLinks two_links) w) !! ["content_data"; "a"] = Some dark
  /\ durable (after (bulkSaveLinks two_links) w) !! ["content_data"; "b"] = None.
Proof.
  intros w.
  destruct (bulkSaveLinks_failure_handling two_links w eq_refl) as (_ & _ & Hok).
  destruct (Hok eq_refl) as [_ Hkeys].
  split.
  - exact (proj2 (Hkeys "a" dark eq_refl)).
  - exact (proj2 (Hkeys "b" light eq_refl)).
Defined.

(** C5 fails as stated: the fast-store bulk update rejects and no
    durable-store write is issued for the key of the batch. *)
Lemma bulk_fast_failure_skips_durable :
  let w := set_rejects (rejecting [RtdbUpdate "content_links"]) ready_world in
  unready w = false
  /\ rejects w (RtdbUpdate "content_links") = true
  /\ two_links !! "a" = Some dark
  /\ issued (after (bulkSaveLinks two_links) w) = [RtdbUpdate "content_links"]
  /\ ~ In (SetDoc ["content_data"; "a"]) (issued (after (bulkSaveLinks two_links) w))
  /\ durable (after (bulkSaveLinks two_links) w) !! ["content_data"; "a"] = None.
Proof. by_evaluation. Qed.

(** ** C7 *)

Lemma has_char_app (c : ascii) (s t : string) :
  has_char c (s +:+ String c t).
Proof. induction s as [|c' s IH]; simpl; auto. Qed.

Lemma pretty_N_char_not_underscore (x : N) : pretty_N_char x <> "_"%char.
Proof. unfold pretty_N_char. by repeat case_match. Qed.

Lemma pretty_N_go_underscore (x : N) (s : string) :
  has_char "_" (pretty_N_go x s) -> has_char "_" s.
Proof.
  revert s. induction (N.lt_wf_0 x) as [x _ IH]; intros s.
  assert (x = 0 \/ 0 < x)%N as [->|Hpos] by lia.
  - by rewrite pretty_N_go_0.
  - rewrite pretty_N_go_step by done.
    intros Hgo. apply IH in Hgo; [|by apply N.div_lt].
    destruct Hgo as [Hc|Hs]; [|done].
    by destruct (pretty_N_char_not_underscore (x `mod` 10)).
Qed.

(** The decimal numeral of an integer has no underscore. *)
Lemma pretty_Z_underscore (n : Z) : ~ has_char "_" (pretty n).
Proof.
  assert (forall p : positive, ~ has_char "_" (pretty p)) as Hpos.
  { intros p. unfold pretty, pretty_positive, pretty, pretty_N.
    case_decide; [done|]. intros Hgo. by apply pretty_N_go_underscore in Hgo. }
  unfold pretty, pretty_Z. destruct n as [|p|p]; simpl.
  - intros [H|[]]. discriminate H.
  - apply Hpos.
  - intros [H|H]; [discriminate H|]. by apply Hpos in H.
Qed.

(** A string is split in one way only at its last underscore. *)
Lemma underscore_split (a b s t : string) :
  ~ has_char "_" s -> ~ has_char "_" t ->
  a +:+ "_" +:+ s = b +:+ "_" +:+ t -> a = b /\ s = t.
Proof.
  change ("_" +:+ s) with (String "_" s). change ("_" +:+ t) with (String "_" t).
  intros Hs Ht. revert b.
  induction a as [|c a IH]; intros [|c' b]; cbn; intros Heq.
  - by injection Heq as ->.
  - injection Heq as Hhead Htail. destruct Hs. rewrite Htail. apply has_char_app.
  - injection Heq as Hhead Htail. destruct Ht. rewrite <- Htail. apply has_char_app.
  - injection Heq as Hhead Htail. destruct (IH b Htail) as [-> ->]. by subst.
Qed.

Lemma test_result_id_inj (t1 t2 : string) (n1 n2 : Z) :
  test_result_id t1 n1 = test_result_id t2 n2 <-> t1 = t2 /\ n1 = n2.
Proof.
  split; [|by intros [-> ->]].
  unfold test_result_id. intros H.
  apply underscore_split in H as [-> H]; try apply pretty_Z_underscore.
  split; [done|]. by apply (inj pretty).
Qed.

Lemma saveTestResult_ready (userId : string) (attempt : Attempt) (w : World) :
  db w = true ->
  let path := ["users"; userId; "test_results";
               test_result_id (testId attempt) (clock w)] in
  result (saveTestResult userId attempt) w = Returned tt
  /\ issued (after (saveTestResult userId attempt) w) = issued w ++ [SetDoc path]
  /\ durable (after (saveTestResult userId attempt) w)
     = if rejects w (SetDoc path) then durable w
       else <[path := attempt_object attempt]> (durable w).
Proof.
  intros Hdb path. subst path.
  unfold result, after, saveTestResult. rewrite Hdb. js_unfold.
  destruct (rejects w (SetDoc _)); done.
Qed.

(** C7, as the code has it: with the durable store ready, each call of
    [saveTestResult] writes one document under the user, keyed by the test
    identifier and the clock reading of the call, and the keys of two calls
    are equal exactly when both the test identifiers and the clock readings
    are equal: two calls generate distinct keys when their clock readings
    (in milliseconds) differ or their tests differ. *)
Theorem saveTestResult_keys (userId : string) (a1 a2 : Attempt) (w1 w2 : World) :
  db w1 = true -> db w2 = true ->
  exists k1 k2 : string,
    issued (after (saveTestResult userId a1) w1)
      = issued w1 ++ [SetDoc ["users"; userId; "test_results"; k1]]
    /\ issued (after (saveTestResult userId a2) w2)
      = issued w2 ++ [SetDoc ["users"; userId; "test_results"; k2]]
    /\ (k1 = k2 <-> testId a1 = testId a2 /\ clock w1 = clock w2).
Proof.
  intros H1 H2.
  exists (test_result_id (testId a1) (clock w1)),
         (test_result_id (testId a2) (clock w2)).
  destruct (saveTestResult_ready userId a1 w1 H1) as (_ & Hi1 & _).
  destruct (saveTestResult_ready userId a2 w2 H2) as (_ & Hi2 & _).
  split; [exact Hi1|]. split; [exact Hi2|]. apply test_result_id_inj.
Qed.

Lemma saveTestResult_keys_witness :
  exists k1 k2 : string,
    issued (after (saveTestResult "u1" first_try) ready_world)
      = issued ready_world ++ [SetDoc ["users"; "u1"; "test_results"; k1]]
    /\ issued (after (saveTestResult "u1" second_try) (set_clock 1700000000001 ready_world))
      = issued (set_clock 1700000000001 ready_world)
          ++ [SetDoc ["users"; "u1"; "test_results"; k2]]
    /\ (k1 = k2 <-> testId first_try = testId second_try
                    /\ clock ready_world = clock (set_clock 1700000000001 ready_world)).
Proof.
  apply (saveTestResult_keys "u1" first_try second_try ready_world
           (set_clock 1700000000001 ready_world)); reflexivity.
Defined.

(** C7 fails as stated: two calls for the same user and the same test within
    one millisecond write the same document, and the first record is
    replaced by the second. *)
Lemma same_millisecond_keys_collide :
  let w1 := after (saveTestResult "u1" first_try) ready_world in
  let w2 := after (saveTestResult "u1" second_try) w1 in
  clock w1 = clock ready_world
  /\ issued w2 = [SetDoc ["users"; "u1"; "test_results"; "quiz_1700000000000"];
                  SetDoc ["users"; "u1"; "test_results"; "quiz_1700000000000"]]
  /\ durable w1 !! ["users"; "u1"; "test_results"; "quiz_1700000000000"]
     = Some (attempt_object first_try)
  /\ durable w2 !! ["users"; "u1"; "test_results"; "quiz_1700000000000"]
     = Some (attempt_object second_try)
  /\ size (durable w2) = 1%nat.
Proof. by_evaluation. Qed.

(** ** Subscriptions *)

(** A listener only ever invokes its own callback, and leaves the
    registered listeners as they are. *)
Lemma react_effect (e : event) (l : listener) (w : World) :
  listeners (react e l w) = listeners w
  /\ exists extra,
       delivered (react e l w) = delivered w ++ extra
       /\ Forall (fun d => d.1 = listener_cb l) extra.
Proof.
  destruct e as [docs|docSnap|key snapshot|f d r], l as [cb|cb|key' cb]; simpl;
    try (split; [done|]; exists []; by rewrite app_nil_r).
  - destruct docs; simpl.
    + destruct (rejects w _); simpl.
      * split; [done|]. exists []. by rewrite app_nil_r.
      * split; [done|]. eexists [_]. split; [done|]. by constructor.
    + split; [done|]. eexists [_]. split; [done|]. by constructor.
  - destruct docSnap; simpl.
    + split; [done|]. eexists [_]. split; [done|]. by constructor.
    + destruct (rejects w _); simpl.
      * split; [done|]. exists []. by rewrite app_nil_r.
      * destruct (fast w !! _); simpl.
        -- split; [done|]. eexists [_]. split; [done|]. by constructor.
        -- split; [done|]. exists []. by rewrite app_nil_r.
  - case_decide; [|split; [done|]; exists []; by rewrite app_nil_r].
    unfold chapter_listener. destruct snapshot; simpl.
    + split; [done|]. eexists [_]. split; [done|]. by constructor.
    + js_unfold. destruct (rejects w _); simpl.
      * split; [done|]. exists []. by rewrite app_nil_r.
      * destruct (durable w !! _); simpl.
        -- split; [done|]. eexists [_]. split; [done|]. by constructor.
        -- split; [done|]. exists []. by rewrite app_nil_r.
Qed.

Lemma react_all_listeners (e : event) (ls : list (nat * listener)) (w : World) :
  listeners (react_all e ls w) = listeners w.
Proof.
  revert w. induction ls as [|[h l] ls IH]; intros w; [done|].
  simpl. rewrite IH. apply react_effect.
Qed.

Lemma run_listeners (events : list event) (w : World) :
  listeners (run events w) = listeners w.
Proof.
  revert w. induction events as [|e rest IH]; intros w; [done|].
  simpl. rewrite IH. destruct e; simpl; try apply react_all_listeners. done.
Qed.

Lemma deliveries_to_app (cb : nat) (w w' : World) (extra : list (nat * delivery)) :
  delivered w' = delivered w ++ extra ->
  Forall (fun d => d.1 <> cb) extra ->
  deliveries_to cb w' = deliveries_to cb w.
Proof.
  intros Heq Hother. unfold deliveries_to. rewrite Heq, List.filter_app.
  clear Heq.
  assert (List.filter (fun d : nat * delivery => Nat.eqb d.1 cb) extra = []) as ->.
  { induction Hother as [|d rest Hd _ IH]; simpl; [done|].
    apply Nat.eqb_neq in Hd. by rewrite Hd. }
  apply app_nil_r.
Qed.

Lemma react_all_effect (cb : nat) (e : event) (ls : list (nat * listener))
    (w : World) :
  (forall h l, In (h, l) ls -> listener_cb l <> cb) ->
  listeners (react_all e ls w) = listeners w
  /\ deliveries_to cb (react_all e ls w) = deliveries_to cb w.
Proof.
  revert w. induction ls as [|[h l] rest IH]; intros w Hother; [done|].
  simpl. destruct (IH (react e l w)) as [Hls Hto].
  { intros h' l' Hin. apply (Hother h'). by right. }
  destruct (react_effect e l w) as (Hl & extra & Hd & Hown).
  rewrite Hls, Hto, Hl. split; [done|].
  apply (deliveries_to_app cb w _ extra Hd).
  eapply Forall_impl; [exact Hown|]. simpl. intros d ->.
  apply (Hother h). by left.
Qed.

Lemma deliver_effect (cb : nat) (e : event) (w : World) :
  (forall h l, In (h, l) (listeners w) -> listener_cb l <> cb) ->
  listeners (deliver e w) = listeners w
  /\ deliveries_to cb (deliver e w) = deliveries_to cb w.
Proof.
  intros Hother.
  destruct e; try apply (react_all_effect cb _ (listeners w) w Hother).
  done.
Qed.

(** A callback that no registered listener holds is never invoked. *)
Lemma run_effect (cb : nat) (events : list event) (w : World) :
  (forall h l, In (h, l) (listeners w) -> listener_cb l <> cb) ->
  listeners (run events w) = listeners w
  /\ deliveries_to cb (run events w) = deliveries_to cb w.
Proof.
  revert w. induction events as [|e rest IH]; intros w Hother; [done|].
  simpl. destruct (deliver_effect cb e w Hother) as [Hls Hto].
  destruct (IH (deliver e w)) as [Hls' Hto'].
  { by rewrite Hls. }
  by rewrite Hls', Hto', Hls, Hto.
Qed.

(** ** C8 *)

(** C8: when a handle is missing at subscribe time, each subscribe helper
    returns the no-op function and registers nothing: calling the returned
    function changes nothing in any world, and over every sequence of store
    events the callback (held by no other subscription) is never invoked. *)
Theorem unready_subscribe_is_inert (key : string) (cb : nat) (w : World) :
  unready w = true ->
  (forall h l, In (h, l) (listeners w) -> listener_cb l <> cb) ->
  (subscribeToUsers cb w = (NoOp, w)
   /\ subscribeToSettings cb w = (NoOp, w)
   /\ subscribeToChapterData key cb w = (NoOp, w))
  /\ (forall w', cancel (subscribeToUsers cb w).1 w' = w'
                 /\ cancel (subscribeToSettings cb w).1 w' = w'
                 /\ cancel (subscribeToChapterData key cb w).1 w' = w')
  /\ (forall events,
        deliveries_to cb (run events (subscribeToUsers cb w).2) = deliveries_to cb w
        /\ deliveries_to cb (run events (subscribeToSettings cb w).2) = deliveries_to cb w
        /\ deliveries_to cb (run events (subscribeToChapterData key cb w).2)
           = deliveries_to cb w).
Proof.
  intros Hun Hfresh.
  unfold subscribeToUsers, subscribeToSettings, subscribeToChapterData.
  rewrite Hun. simpl. split; [done|]. split; [done|].
  intros events. by destruct (run_effect cb events w Hfresh) as [_ ->].
Qed.

Lemma unready_subscribe_is_inert_witness :
  subscribeToUsers 7 unready_world = (NoOp, unready_world)
  /\ deliveries_to 7
       (run [UsersSnapshot []; SettingsSnapshot (Some dark); ChapterValue "ch1" None]
            (subscribeToChapterData "ch1" 7 unready_world).2)
     = deliveries_to 7 unready_world.
Proof.
  destruct (unready_subscribe_is_inert "ch1" 7 unready_world eq_refl)
    as ((Hu & _) & _ & Hrun).
  { intros h l []. }
  split; [exact Hu|].
  destruct (Hrun [UsersSnapshot []; SettingsSnapshot (Some dark); ChapterValue "ch1" None])
    as (_ & _ & Hch).
  exact Hch.
Defined.

(** ** C2 *)

Lemma users_listener_issued (cb : nat) (docs : list Payload) (w : World) :
  listeners (users_listener cb docs w) = listeners w
  /\ issued (users_listener cb docs w)
     = issued w ++ (if is_empty_snapshot (UsersSnapshot docs)
                    then [RtdbOnValueOnce "users"] else []).
Proof.
  destruct docs; simpl.
  - by destruct (rejects w _).
  - by rewrite app_nil_r.
Qed.

(** With one users subscription registered, an event issues one fast-store
    read when it is an empty users snapshot, and none otherwise. *)
Lemma deliver_single_users (h cb : nat) (e : event) (w : World) :
  listeners w = [(h, UsersListener cb)] ->
  listeners (deliver e w) = [(h, UsersListener cb)]
  /\ fallback_reads (deliver e w)
     = (fallback_reads w + (if is_empty_snapshot e then 1 else 0))%nat.
Proof.
  intros Hls. unfold fallback_reads.
  destruct e as [docs|docSnap|key snapshot|f d r]; unfold deliver;
    rewrite ?Hls; simpl; try (split; [done|lia]).
  destruct (users_listener_issued cb docs w) as [-> ->].
  split; [done|]. rewrite count_occ_app.
  destruct docs; simpl; lia.
Qed.

Lemma run_single_users (h cb : nat) (events : list event) (w : World) :
  listeners w = [(h, UsersListener cb)] ->
  fallback_reads (run events w) = (fallback_reads w + empty_snapshots events)%nat.
Proof.
  revert w. induction events as [|e rest IH]; intros w Hls; simpl.
  - unfold empty_snapshots. simpl. lia.
  - destruct (deliver_single_users h cb e w Hls) as [Hls' Hcount].
    rewrite (IH _ Hls'), Hcount. unfold empty_snapshots. simpl.
    destruct (is_empty_snapshot e); simpl; lia.
Qed.

(** With no listener registered, events issue no call. *)
Lemma run_no_listener (events : list event) (w : World) :
  listeners w = [] -> issued (run events w) = issued w.
Proof.
  revert w. induction events as [|e rest IH]; intros w Hls; [done|].
  simpl. rewrite IH.
  - destruct e; unfold deliver; rewrite ?Hls; done.
  - destruct e; unfold deliver; rewrite ?Hls; done.
Qed.

(** C2, as the code has it: over the lifetime of one [subscribeToUsers]
    subscription, from the subscribe call to the call of the returned
    function, the one-shot fast-store read is issued once for every empty
    durable-store snapshot delivered, the first or a later one, and for no
    other event; after the returned function is called it is issued no
    more. *)
Theorem users_fallback_per_empty_snapshot (cb : nat) (w : World)
    (events later : list event) :
  unready w = false ->
  listeners w = [] ->
  fallback_reads (run events (subscribeToUsers cb w).2)
    = (fallback_reads w + empty_snapshots events)%nat
  /\ fallback_reads
       (run later (cancel (subscribeToUsers cb w).1
                          (run events (subscribeToUsers cb w).2)))
     = (fallback_reads w + empty_snapshots events)%nat.
Proof.
  intros Hready Hnone. unfold subscribeToUsers. rewrite Hready. simpl.
  set (w1 := set_listeners _ _ _).
  assert (listeners w1 = [(next_handle w, UsersListener cb)]) as Hls.
  { subst w1. simpl. by rewrite Hnone. }
  assert (fallback_reads w1 = fallback_reads w) as Hsame.
  { subst w1. unfold fallback_reads. simpl. rewrite count_occ_app. simpl.
    lia. }
  pose proof (run_single_users _ _ events w1 Hls) as Hcount.
  rewrite Hsame in Hcount. split; [exact Hcount|].
  unfold fallback_reads at 1. rewrite run_no_listener; [exact Hcount|].
  simpl. rewrite run_listeners, Hls. simpl. by rewrite Nat.eqb_refl.
Qed.

Lemma users_fallback_per_empty_snapshot_witness :
  fallback_reads
    (run [UsersSnapshot []; UsersSnapshot [user_object ann]; UsersSnapshot []]
         (subscribeToUsers 7 migrating_world).2)
    = (fallback_reads migrating_world
       + empty_snapshots
           [UsersSnapshot []; UsersSnapshot [user_object ann]; UsersSnapshot []])%nat.
Proof.
  exact (proj1 (users_fallback_per_empty_snapshot 7 migrating_world
                  [UsersSnapshot []; UsersSnapshot [user_object ann]; UsersSnapshot []]
                  [] eq_refl eq_refl)).
Defined.

(** C2 fails as stated: two empty snapshots trigger two fallback reads (and
    two invocations of the callback), and an empty snapshot that follows a
    non-empty first snapshot triggers one as well. *)
Lemma fallback_fires_on_every_empty_snapshot :
  let w1 := (subscribeToUsers 7 migrating_world).2 in
  fallback_reads w1 = 0%nat
  /\ fallback_reads (run [UsersSnapshot []; UsersSnapshot []] w1) = 2%nat
  /\ delivered (run [UsersSnapshot []; UsersSnapshot []] w1)
     = [(7%nat, Users [user_object ann]); (7%nat, Users [user_object ann])]
  /\ fallback_reads (run [UsersSnapshot [user_object ann]; UsersSnapshot []] w1) = 1%nat.
Proof. by_evaluation. Qed.

(** ** User activity *)

Example utc_iso_string_epoch : utc_iso_string 0 = "1970-01-01T00:00:00.000Z".
Proof. vm_compute. reflexivity. Qed.

Example utc_iso_string_2023 :
  utc_iso_string 1700000000000 = "2023-11-14T22:13:20.000Z".
Proof. vm_compute. reflexivity. Qed.

Example utc_iso_string_leap_day :
  utc_iso_string 951825599999 = "2000-02-29T11:59:59.999Z".
Proof. vm_compute. reflexivity. Qed.

Example utc_iso_string_before_epoch :
  utc_iso_string (-1) = "1969-12-31T23:59:59.999Z".
Proof. vm_compute. reflexivity. Qed.

Section Activity.

Variable toISOString : Z -> string.

(** What [updateUserStatus] does, case by case. *)
Lemma updateUserStatus_effect (userId : string) (time : Z) (w : World) :
  after (updateUserStatus toISOString userId time) w
    = if negb (rtdb w) then w
      else if rejects w (RtdbUpdate ("users/" +:+ userId))
      then record_call (RtdbUpdate ("users/" +:+ userId)) w
      else set_fast
             (<["users/" +:+ userId :=
                  <["lastActiveTime" := VStr (toISOString (clock w))]>
                    (default ∅ (fast w !! ("users/" +:+ userId)))]> (fast w))
             (record_call (RtdbUpdate ("users/" +:+ userId)) w).
Proof.
  unfold after, updateUserStatus. destruct (rtdb w); simpl; [|done].
  js_unfold. destruct (rejects w _); simpl; [done|].
  by rewrite <- insert_union_singleton_l.
Qed.

(** C9: [updateUserStatus] issues no durable-store call and leaves the
    durable store as it is; in the fast store it touches the record of that
    user only, and of that record the field [lastActiveTime] only: when the
    fast store is ready and the update does not reject, the record becomes
    the old one (the empty object when there was none) with
    [lastActiveTime] set, every other field kept. *)
Theorem updateUserStatus_frame (userId : string) (time : Z) (w : World) :
  let w' := after (updateUserStatus toISOString userId time) w in
  let path := "users/" +:+ userId in
  durable w' = durable w
  /\ (forall c, In c (issued w') -> In c (issued w) \/ c = RtdbUpdate path)
  /\ (forall other, other <> path -> fast w' !! other = fast w !! other)
  /\ (forall field, field <> "lastActiveTime" ->
        default ∅ (fast w' !! path) !! field = default ∅ (fast w !! path) !! field)
  /\ (rtdb w = true -> rejects w (RtdbUpdate path) = false ->
        fast w' !! path
          = Some (<["lastActiveTime" := VStr (toISOString (clock w))]>
                    (default ∅ (fast w !! path)))).
Proof.
  intros w' path. subst w' path. rewrite updateUserStatus_effect.
  destruct (rtdb w); simpl.
  2: { repeat split; auto. intros [=]. }
  destruct (rejects w (RtdbUpdate _)); simpl.
  { repeat split; auto; [|intros _ [=]].
    intros c Hin. apply in_app_or in Hin as [Hin|[<-|[]]]; auto. }
  split; [done|]. split.
  { intros c Hin. apply in_app_or in Hin as [Hin|[<-|[]]]; auto. }
  split; [intros other Hne; by rewrite lookup_insert_ne|].
  split; [|intros _ _; by rewrite lookup_insert_eq].
  intros field Hne. rewrite lookup_insert_eq. simpl.
  by rewrite lookup_insert_ne.
Qed.

(** C10: [updateUserStatus] does not look at its [time] argument: two calls
    that differ in it only behave alike, and when the update goes through,
    the [lastActiveTime] written is the ISO string of the clock reading of
    the call. *)
Theorem updateUserStatus_ignores_time (userId : string) (time time' : Z)
    (w : World) :
  updateUserStatus toISOString userId time w
    = updateUserStatus toISOString userId time' w
  /\ (rtdb w = true -> rejects w (RtdbUpdate ("users/" +:+ userId)) = false ->
      exists record,
        fast (after (updateUserStatus toISOString userId time) w)
          !! ("users/" +:+ userId) = Some record
        /\ record !! "lastActiveTime" = Some (VStr (toISOString (clock w)))).
Proof.
  split; [reflexivity|]. intros Hready Hok.
  rewrite updateUserStatus_effect, Hready, Hok. simpl.
  rewrite lookup_insert_eq. eexists. split; [done|].
  by rewrite lookup_insert_eq.
Qed.

End Activity.

Lemma updateUserStatus_frame_witness :
  durable (after (updateUserStatus utc_iso_string "u1" 5) synced_world)
    = durable synced_world
  /\ fast (after (updateUserStatus utc_iso_string "u1" 5) synced_world) !! "users/u1"
     = Some (<["lastActiveTime" := VStr (utc_iso_string (clock synced_world))]>
               (default ∅ (fast synced_world !! "users/u1"))).
Proof.
  destruct (updateUserStatus_frame utc_iso_string "u1" 5 synced_world)
    as (Hdurable & _ & _ & _ & Hmerge).
  split; [exact Hdurable | exact (Hmerge eq_refl eq_refl)].
Defined.

(** The merge on Ann's record: the name and the identifier stay. *)
Example updateUserStatus_keeps_fields :
  let w' := after (updateUserStatus utc_iso_string "u1" 5) synced_world in
  fast w' !! "users/u1"
    = Some {[ "id" := VStr "u1"; "name" := VStr "Ann";
              "lastActiveTime" := VStr "2023-11-14T22:13:20.000Z" ]}
  /\ durable w' !! ["users"; "u1"]
     = Some {[ "id" := VStr "u1"; "name" := VStr "Ann" ]}.
Proof. by_evaluation. Qed.

Lemma updateUserStatus_ignores_time_witness :
  updateUserStatus utc_iso_string "u1" 5 synced_world
    = updateUserStatus utc_iso_string "u1" 1700000099999 synced_world
  /\ exists record,
       fast (after (updateUserStatus utc_iso_string "u1" 5) synced_world)
         !! ("users/" +:+ "u1") = Some record
       /\ record !! "lastActiveTime"
          = Some (VStr (utc_iso_string (clock synced_world))).
Proof.
  destruct (updateUserStatus_ignores_time utc_iso_string "u1" 5 1700000099999
              synced_world) as [Hsame Hvalue].
  split; [exact Hsame | exact (Hvalue eq_refl eq_refl)].
Defined.

(** * Further properties *)

(** ** Module initialisation, step by step *)

(** X1: whichever initialisation call throws, [app], [db], [rtdb] and [auth]
    end all unset, and they are all set when none throws, so
    [checkFirebaseConnection] holds exactly when no call threw and then
    every guarded helper is live; [analytics] alone keeps its handle when a
    later call throws. *)
Theorem load_all_or_nothing (throws : Init.step -> bool) (w : World) :
  let h := Init.load throws in
  Init.app h = Init.db h /\ Init.db h = Init.rtdb h /\ Init.rtdb h = Init.auth h
  /\ (Init.checkFirebaseConnection h = true <-> forall s, throws s = false)
  /\ (Init.analytics h = true
      <-> throws Init.InitializeApp = false /\ throws Init.GetAnalytics = false)
  /\ unready (initialize (Init.checkFirebaseConnection h) w)
     = negb (Init.db h && Init.rtdb h).
Proof.
  unfold Init.load, Init.checkFirebaseConnection, unready. simpl.
  destruct (throws Init.InitializeApp) eqn:H1; simpl.
  { repeat split; try done; try (by intros []). intros H. by rewrite H in H1. }
  destruct (throws Init.GetAnalytics) eqn:H2; simpl.
  { repeat split; try done; try (by intros []). intros H. by rewrite H in H2. }
  destruct (throws Init.GetFirestore) eqn:H3; simpl.
  { repeat split; try done. intros H. by rewrite H in H3. }
  destruct (throws Init.GetDatabase) eqn:H4; simpl.
  { repeat split; try done. intros H. by rewrite H in H4. }
  destruct (throws Init.GetAuth) eqn:H5; simpl.
  { repeat split; try done. intros H. by rewrite H in H5. }
  repeat split; try done. by intros _ [].
Qed.

(** ** Paths *)

Lemma append_inj_r (a b c : string) : a +:+ b = a +:+ c -> b = c.
Proof. induction a as [|ch a IH]; cbn; [done|]. intros [= H]. by apply IH. Qed.

Lemma users_not_content (k key : string) :
  "users/" +:+ k <> "content_data/" +:+ key.
Proof. cbn. discriminate. Qed.

Lemma content_not_links (k key : string) :
  "content_data/" +:+ k <> "content_links" +:+ "/" +:+ key.
Proof. cbn. discriminate. Qed.

Lemma users_not_links (k key : string) :
  "users/" +:+ k <> "content_links" +:+ "/" +:+ key.
Proof. cbn. discriminate. Qed.

(** ** What the helpers leave alone *)

Lemma same_env_refl (w : World) : same_env w w.
Proof. by repeat split. Qed.

Lemma same_env_trans (w1 w2 w3 : World) :
  same_env w1 w2 -> same_env w2 w3 -> same_env w1 w3.
Proof.
  intros (A1 & A2 & A3 & A4 & A5) (B1 & B2 & B3 & B4 & B5).
  repeat split; congruence.
Qed.

Lemma same_env_unready (w w' : World) : same_env w w' -> unready w' = unready w.
Proof. intros (H1 & H2 & _). unfold unready. by rewrite H1, H2. Qed.

Lemma dual_write_env (p : string) (d : list string) (data : Payload)
    (msg : string) (w : World) :
  same_env w (after (try_catch (rtdb_set p data ;; setDoc d data)
                               (console_error msg)) w).
Proof.
  js_unfold. destruct (rejects w (RtdbSet p)); simpl; [by repeat split|].
  destruct (rejects w (SetDoc d)); simpl; by repeat split.
Qed.

Lemma saveUserToLive_env (user : User) (w : World) :
  same_env w (after (saveUserToLive user) w).
Proof.
  unfold after, saveUserToLive. destruct (unready w); [apply same_env_refl|].
  apply dual_write_env.
Qed.

Lemma saveSystemSettings_env (settings : Payload) (w : World) :
  same_env w (after (saveSystemSettings settings) w).
Proof.
  unfold after, saveSystemSettings. destruct (unready w); [apply same_env_refl|].
  apply dual_write_env.
Qed.

Lemma saveChapterData_env (key : string) (data : Payload) (w : World) :
  same_env w (after (saveChapterData key data) w).
Proof.
  unfold after, saveChapterData. destruct (unready w); [apply same_env_refl|].
  apply dual_write_env.
Qed.

(** A read with fallback depends on the oracle and on the two records it
    looks at only. *)
Lemma fallback_read_ext (w w' : World) (p : string) (d : list string) :
  rejects w' = rejects w ->
  fast w' !! p = fast w !! p ->
  durable w' !! d = durable w !! d ->
  fallback_read w' p d = fallback_read w p d.
Proof. intros Hr Hf Hd. unfold fallback_read. by rewrite Hr, Hf, Hd. Qed.

Lemma getUserData_result (k : string) (w : World) :
  result (getUserData k) w
    = Returned (if unready w then None
                else fallback_read w ("users/" +:+ k) ["users"; k]).
Proof.
  destruct (unready w) eqn:Hun.
  - unfold result, getUserData. by rewrite Hun.
  - by destruct (getUserData_ready k w Hun) as (-> & _).
Qed.

Lemma getChapterData_result (key : string) (w : World) :
  result (getChapterData key) w
    = Returned (if unready w then None
                else fallback_read w ("content_data/" +:+ key) ["content_data"; key]).
Proof.
  destruct (unready w) eqn:Hun.
  - unfold result, getChapterData. by rewrite Hun.
  - by destruct (getChapterData_ready key w Hun) as (-> & _).
Qed.

(** The stores after a dual write, record by record. *)
Lemma dual_write_lookup (w : World) (p : string) (d : list string) (data : Payload) :
  (forall p', p' <> p -> dual_write_fast w p data !! p' = fast w !! p')
  /\ (forall d', d' <> d -> dual_write_durable w p d data !! d' = durable w !! d').
Proof.
  unfold dual_write_fast, dual_write_durable. split.
  - intros p' Hne. destruct (rejects w (RtdbSet p)); [done|].
    by rewrite lookup_insert_ne.
  - intros d' Hne. destruct (_ || _); [done|]. by rewrite lookup_insert_ne.
Qed.

(** X2: a save touches the records of its own key only: saving a user
    leaves what [getUserData] returns for every other user and what
    [getChapterData] returns for every chapter as it was, and saving a
    chapter leaves every user and every other chapter as it was. *)
Theorem save_frame (user : User) (key : string) (data : Payload)
    (k key' : string) (w : World) :
  k <> id user ->
  key' <> key ->
  result (getUserData k) (after (saveUserToLive user) w) = result (getUserData k) w
  /\ result (getChapterData key') (after (saveUserToLive user) w)
     = result (getChapterData key') w
  /\ result (getUserData k) (after (saveChapterData key data) w)
     = result (getUserData k) w
  /\ result (getChapterData key') (after (saveChapterData key data) w)
     = result (getChapterData key') w.
Proof.
  intros Hk Hkey.
  pose proof (saveUserToLive_env user w) as Hue.
  pose proof (saveChapterData_env key data w) as Hce.
  rewrite !getUserData_result, !getChapterData_result.
  rewrite (same_env_unready _ _ Hue), (same_env_unready _ _ Hce).
  destruct (unready w) eqn:Hun; [done|].
  destruct (saveUserToLive_ready user w Hun) as (_ & _ & Hfu & Hdu & _).
  destruct (saveChapterData_ready key data w Hun) as (_ & _ & Hfc & Hdc & _).
  destruct Hue as (_ & _ & Hru & _). destruct Hce as (_ & _ & Hrc & _).
  destruct (dual_write_lookup w ("users/" +:+ id user) ["users"; id user]
              (user_object user)) as [Hlfu Hldu].
  destruct (dual_write_lookup w ("content_data/" +:+ key) ["content_data"; key]
              data) as [Hlfc Hldc].
  repeat apply conj; f_equal; apply fallback_read_ext; try done.
  - rewrite Hfu. apply Hlfu. intros H. by apply append_inj_r in H.
  - rewrite Hdu. apply Hldu. by intros [= ?].
  - rewrite Hfu. apply Hlfu. intros H. by apply (users_not_content (id user) key').
  - rewrite Hdu. by apply Hldu.
  - rewrite Hfc. apply Hlfc. apply users_not_content.
  - rewrite Hdc. by apply Hldc.
  - rewrite Hfc. apply Hlfc. intros H. by apply append_inj_r in H.
  - rewrite Hdc. apply Hldc. by intros [= ?].
Qed.

(** Saving Ann, or chapter [ch2], changes nothing for Bob and chapter [ch1],
    which the fast store holds. *)
Lemma save_frame_witness :
  result (getUserData "u2") (after (saveUserToLive ann) stocked_world)
    = Returned (Some (user_object bob))
  /\ result (getChapterData "ch1") (after (saveUserToLive ann) stocked_world)
     = Returned (Some light)
  /\ result (getUserData "u2") (after (saveChapterData "ch2" dark) stocked_world)
     = Returned (Some (user_object bob))
  /\ result (getChapterData "ch1") (after (saveChapterData "ch2" dark) stocked_world)
     = Returned (Some light).
Proof.
  apply (save_frame ann "ch2" dark "u2" "ch1" stocked_world); discriminate.
Defined.

(** ** Lookup by email *)

Lemma in_collection_iff (coll : string) (path : list string) :
  in_collection coll path = true <-> exists docId, path = [coll; docId].
Proof.
  unfold in_collection. split.
  - destruct path as [|c [|docId [|? ?]]]; try done.
    intros H. apply bool_decide_eq_true in H as ->. by exists docId.
  - intros [docId ->]. by apply bool_decide_eq_true.
Qed.

(** The documents a [where] query returns. *)
Lemma getDocs_where_elem (coll field : string) (v : value)
    (d : gmap (list string) Payload) (u : Payload) :
  In u (List.filter (fun pd : list string * Payload =>
                       in_collection coll pd.1
                       && bool_decide (pd.2 !! field = Some v))
                    (map_to_list d)).*2
  <-> exists docId, d !! [coll; docId] = Some u /\ u !! field = Some v.
Proof.
  rewrite <- list_elem_of_In, list_elem_of_fmap. split.
  - intros ([path u'] & -> & Hin). apply list_elem_of_In, filter_In in Hin as [Hin Hok].
    apply list_elem_of_In, elem_of_map_to_list in Hin. simpl in *.
    apply andb_true_iff in Hok as [Hcoll Hfield].
    apply in_collection_iff in Hcoll as [docId ->].
    apply bool_decide_eq_true in Hfield. by exists docId.
  - intros (docId & Hdoc & Hfield). exists ([coll; docId], u). split; [done|].
    apply list_elem_of_In, filter_In. split.
    + by apply list_elem_of_In, elem_of_map_to_list.
    + simpl. apply andb_true_iff. split; by apply bool_decide_eq_true.
Qed.

Lemma getUserByEmail_effect (rejected : bool) (email : string) (w : World) :
  getUserByEmail rejected email w
    = if negb (db w) then (Returned None, w)
      else if rejected then (Returned None, record_console "(error)" w)
      else (Returned
              (head (List.filter
                       (fun pd : list string * Payload =>
                          in_collection "users" pd.1
                          && bool_decide (pd.2 !! "email" = Some (VStr email)))
                       (map_to_list (durable w))).*2), w).
Proof.
  unfold getUserByEmail. destruct (negb (db w)); [done|].
  unfold try_catch, bind, getDocs_where, ret, console_error.
  destruct rejected; [done|]. simpl. by destruct (_.*2).
Qed.

(** X3: with the durable store ready and the query not rejected,
    [getUserByEmail] returns a user only if that user is stored in the
    durable users collection with that email, returns [null] exactly when no
    stored user has that email, and changes nothing. *)
Theorem getUserByEmail_finds (email : string) (w : World) :
  db w = true ->
  (forall u, result (getUserByEmail false email) w = Returned (Some u) ->
     exists userId, durable w !! ["users"; userId] = Some u
                    /\ u !! "email" = Some (VStr email))
  /\ (result (getUserByEmail false email) w = Returned None
      <-> forall userId u, durable w !! ["users"; userId] = Some u ->
                           u !! "email" <> Some (VStr email))
  /\ after (getUserByEmail false email) w = w.
Proof.
  intros Hdb. unfold result, after. rewrite getUserByEmail_effect, Hdb. simpl.
  pose proof (getDocs_where_elem "users" "email" (VStr email) (durable w)) as Hel.
  destruct (_.*2) as [|u0 rest] eqn:Hlist; simpl.
  - split; [done|]. split; [|done]. split; [|done].
    intros _ userId u Hdoc Hemail.
    destruct (proj2 (Hel u)) as []. by exists userId.
  - split; [|split; [|done]].
    + intros u [= <-]. apply Hel. by left.
    + split; [done|]. intros Hnone.
      destruct (proj1 (Hel u0)) as (userId & Hdoc & Hemail); [by left|].
      by destruct (Hnone userId u0 Hdoc).
Qed.

Lemma getUserByEmail_finds_witness :
  (forall u, result (getUserByEmail false "ann@x.org") fast_reads_reject
             = Returned (Some u) ->
     exists userId, durable fast_reads_reject !! ["users"; userId] = Some u
                    /\ u !! "email" = Some (VStr "ann@x.org"))
  /\ (result (getUserByEmail false "ann@x.org") fast_reads_reject = Returned None
      <-> forall userId u, durable fast_reads_reject !! ["users"; userId] = Some u ->
                           u !! "email" <> Some (VStr "ann@x.org"))
  /\ after (getUserByEmail false "ann@x.org") fast_reads_reject = fast_reads_reject.
Proof. apply (getUserByEmail_finds "ann@x.org" fast_reads_reject). reflexivity. Defined.

(** X4: [getUserByEmail] never throws and looks at the durable store only:
    worlds with the same [db] handle and the same durable documents give the
    same answer, whatever the fast store and its handle are; without the
    handle it returns [null] and does nothing; a rejected query is logged
    and gives [null]. *)
Theorem getUserByEmail_durable_only (rejected : bool) (email : string)
    (w w' : World) :
  db w' = db w ->
  durable w' = durable w ->
  result (getUserByEmail rejected email) w' = result (getUserByEmail rejected email) w
  /\ (exists answer, result (getUserByEmail rejected email) w = Returned answer)
  /\ (db w = false -> getUserByEmail rejected email w = (Returned None, w))
  /\ (db w = true -> rejected = true ->
      getUserByEmail rejected email w = (Returned None, record_console "(error)" w)).
Proof.
  intros Hdb Hdur. unfold result. rewrite !getUserByEmail_effect, Hdb, Hdur.
  split; [by destruct (negb (db w)), rejected|].
  split; [destruct (negb (db w)), rejected; by eexists|].
  split; [by intros ->|]. by intros -> ->.
Qed.

(** The fast store has lost Ann's record: the lookup by email finds her all
    the same. *)
Lemma getUserByEmail_durable_only_witness :
  result (getUserByEmail false "ann@x.org") fast_wiped_world
    = Returned (Some (user_object ann_mail))
  /\ (exists answer,
        result (getUserByEmail false "ann@x.org") directory_world = Returned answer)
  /\ (db directory_world = false ->
      getUserByEmail false "ann@x.org" directory_world = (Returned None, directory_world))
  /\ (db directory_world = true -> false = true ->
      getUserByEmail false "ann@x.org" directory_world
      = (Returned None, record_console "(error)" directory_world)).
Proof.
  apply (getUserByEmail_durable_only false "ann@x.org" directory_world fast_wiped_world);
    reflexivity.
Defined.

Lemma unready_false_db (w : World) : unready w = false -> db w = true /\ rtdb w = true.
Proof. unfold unready. by destruct (db w), (rtdb w). Qed.

(** X5: a user saved with both writes accepted is found by email: when no
    other stored user has that email, [getUserByEmail] returns exactly the
    saved object. *)
Theorem save_then_find_by_email (user : User) (email : string) (w : World) :
  unready w = false ->
  rejects w (RtdbSet ("users/" +:+ id user)) = false ->
  rejects w (SetDoc ["users"; id user]) = false ->
  attrs user !! "email" = Some (VStr email) ->
  (forall userId u, userId <> id user -> durable w !! ["users"; userId] = Some u ->
                    u !! "email" <> Some (VStr email)) ->
  result (getUserByEmail false email) (after (saveUserToLive user) w)
    = Returned (Some (user_object user)).
Proof.
  intros Hready Hfast Hdur Hemail Hunique.
  destruct (saveUserToLive_ready user w Hready) as (_ & _ & _ & Hd & _).
  unfold dual_write_durable in Hd. rewrite Hfast, Hdur in Hd. simpl in Hd.
  destruct (saveUserToLive_env user w) as (Hdb & _).
  apply unready_false_db in Hready as [Hdbw _]. rewrite Hdbw in Hdb.
  assert (user_object user !! "email" = Some (VStr email)) as Hobj.
  { unfold user_object. by rewrite lookup_insert_ne. }
  unfold result. rewrite getUserByEmail_effect, Hdb. simpl.
  pose proof (getDocs_where_elem "users" "email" (VStr email)
                (durable (after (saveUserToLive user) w))) as Hel.
  destruct (_.*2) as [|u0 rest]; simpl.
  - destruct (proj2 (Hel (user_object user))) as [].
    exists (id user). split; [|done]. rewrite Hd. apply lookup_insert_eq.
  - destruct (proj1 (Hel u0)) as (userId & Hdoc & Hu); [by left|].
    rewrite Hd in Hdoc. destruct (decide (userId = id user)) as [->|Hne].
    + rewrite lookup_insert_eq in Hdoc. by injection Hdoc as ->.
    + rewrite lookup_insert_ne in Hdoc by (by intros [= ?]).
      by destruct (Hunique userId u0 Hne Hdoc).
Qed.

(** Ann with an email address. *)
Lemma save_then_find_by_email_witness :
  result (getUserByEmail false "ann@x.org")
         (after (saveUserToLive (mkUser "u1" {[ "email" := VStr "ann@x.org" ]}))
                ready_world)
    = Returned (Some (user_object (mkUser "u1" {[ "email" := VStr "ann@x.org" ]}))).
Proof.
  apply (save_then_find_by_email (mkUser "u1" {[ "email" := VStr "ann@x.org" ]})
           "ann@x.org" ready_world); try reflexivity.
  intros userId u _ Hdoc. discriminate Hdoc.
Defined.

(** X6: no rollback.  When the fast-store write is accepted and the
    durable-store write rejects, the failure is logged, the durable store is
    left as it was and the fast store keeps the new record: [getUserData]
    returns the new object while [getUserByEmail] answers as before the
    save. *)
Theorem durable_failure_splits_reads (user : User) (rejected : bool)
    (email : string) (w : World) :
  unready w = false ->
  rejects w (RtdbSet ("users/" +:+ id user)) = false ->
  rejects w (SetDoc ["users"; id user]) = true ->
  rejects w (RtdbGet ("users/" +:+ id user)) = false ->
  let w' := after (saveUserToLive user) w in
  result (getUserData (id user)) w' = Returned (Some (user_object user))
  /\ durable w' = durable w
  /\ console w' = console w ++ ["Error saving user:"]
  /\ result (getUserByEmail rejected email) w' = result (getUserByEmail rejected email) w.
Proof.
  intros Hready Hfast Hdur Hget w'.
  destruct (saveUserToLive_ready user w Hready) as (_ & _ & Hf & Hd & Hc & _).
  destruct (saveUserToLive_env user w) as (Hdb & Hrt & Hrej & _).
  fold w' in Hf, Hd, Hc, Hdb, Hrt, Hrej.
  unfold dual_write_fast in Hf. unfold dual_write_durable in Hd.
  unfold dual_write_console in Hc.
  rewrite Hfast in Hf. rewrite Hfast, Hdur in Hd, Hc. simpl in Hd, Hc.
  split; [|split; [done|split; [done|]]].
  - rewrite getUserData_result.
    unfold unready in *. rewrite Hdb, Hrt, Hready.
    unfold fallback_read. rewrite Hrej, Hget, Hf. by rewrite lookup_insert_eq.
  - unfold result. rewrite !getUserByEmail_effect, Hdb, Hd.
    by destruct (negb (db w)), rejected.
Qed.

Lemma durable_failure_splits_reads_witness :
  let w := set_rejects (rejecting [SetDoc ["users"; "u1"]]) ready_world in
  let w' := after (saveUserToLive ann) w in
  result (getUserData (id ann)) w' = Returned (Some (user_object ann))
  /\ durable w' = durable w
  /\ console w' = console w ++ ["Error saving user:"]
  /\ result (getUserByEmail false "ann@x.org") w'
     = result (getUserByEmail false "ann@x.org") w.
Proof.
  intros w.
  apply (durable_failure_splits_reads ann false "ann@x.org" w); reflexivity.
Defined.

(** ** Activity stamps and saves *)

Section ActivityAndSaves.

Variable toISOString : Z -> string.

Lemma updateUserStatus_env (userId : string) (time : Z) (w : World) :
  same_env w (after (updateUserStatus toISOString userId time) w)
  /\ durable (after (updateUserStatus toISOString userId time) w) = durable w.
Proof.
  rewrite updateUserStatus_effect.
  destruct (negb (rtdb w)); [by repeat split|].
  destruct (rejects w _); by repeat split.
Qed.

(** X7: [saveUserToLive] replaces the fast-store record and
    [updateUserStatus] merges into it, so their order matters.  A save
    after a touch drops the stamp: [getUserData] returns the saved object as
    it is.  A touch after a save keeps the saved fields: [getUserData]
    returns the saved object with [lastActiveTime] set, while the durable
    document stays the saved object, without the stamp. *)
Theorem save_and_touch_order (user : User) (time : Z) (w : World) :
  unready w = false ->
  rejects w (RtdbSet ("users/" +:+ id user)) = false ->
  rejects w (SetDoc ["users"; id user]) = false ->
  rejects w (RtdbUpdate ("users/" +:+ id user)) = false ->
  rejects w (RtdbGet ("users/" +:+ id user)) = false ->
  let touch := updateUserStatus toISOString (id user) time in
  result (getUserData (id user)) (after (saveUserToLive user) (after touch w))
    = Returned (Some (user_object user))
  /\ result (getUserData (id user)) (after touch (after (saveUserToLive user) w))
     = Returned (Some (<["lastActiveTime" := VStr (toISOString (clock w))]>
                         (user_object user)))
  /\ durable (after touch (after (saveUserToLive user) w)) !! ["users"; id user]
     = Some (user_object user).
Proof.
  intros Hready Hset Hdoc Hupd Hget touch. subst touch.
  repeat apply conj.
  - set (w1 := after (updateUserStatus toISOString (id user) time) w).
    destruct (updateUserStatus_env (id user) time w) as [He1 _]. fold w1 in He1.
    pose proof (same_env_unready _ _ He1) as Hun1. rewrite Hready in Hun1.
    destruct He1 as (_ & _ & Hr1 & _).
    destruct (saveUserToLive_ready user w1 Hun1) as (_ & _ & Hf & _).
    pose proof (saveUserToLive_env user w1) as He2.
    pose proof (same_env_unready _ _ He2) as Hun2. rewrite Hun1 in Hun2.
    destruct He2 as (_ & _ & Hr2 & _).
    rewrite getUserData_result, Hun2. unfold fallback_read.
    rewrite Hr2, Hr1, Hget, Hf. unfold dual_write_fast. rewrite Hr1, Hset.
    by rewrite lookup_insert_eq.
  - set (w1 := after (saveUserToLive user) w).
    destruct (saveUserToLive_ready user w Hready) as (_ & _ & Hf & _).
    pose proof (saveUserToLive_env user w) as He1. fold w1 in He1, Hf.
    pose proof (same_env_unready _ _ He1) as Hun1. rewrite Hready in Hun1.
    destruct (unready_false_db _ Hun1) as [_ Hrt1].
    destruct He1 as (_ & _ & Hr1 & Hc1 & _).
    destruct (updateUserStatus_env (id user) time w1) as [He2 _].
    pose proof (same_env_unready _ _ He2) as Hun2. rewrite Hun1 in Hun2.
    destruct He2 as (_ & _ & Hr2 & _).
    rewrite getUserData_result, Hun2. unfold fallback_read.
    rewrite Hr2, Hr1, Hget.
    rewrite updateUserStatus_effect, Hrt1, Hr1, Hupd. simpl.
    rewrite lookup_insert_eq, Hc1, Hf. unfold dual_write_fast. rewrite Hset.
    by rewrite lookup_insert_eq.
  - destruct (updateUserStatus_env (id user) time (after (saveUserToLive user) w))
      as [_ ->].
    destruct (saveUserToLive_ready user w Hready) as (_ & _ & _ & -> & _).
    unfold dual_write_durable. rewrite Hset, Hdoc. simpl.
    apply lookup_insert_eq.
Qed.

(** X8: a touch of a user the fast store does not have creates a record
    there that holds the stamp only, and that record hides the durable one:
    before the touch [getUserData] returns the durable document, after it
    the record with nothing but [lastActiveTime]. *)
Theorem touch_hides_durable_record (userId : string) (time : Z)
    (record : Payload) (w : World) :
  unready w = false ->
  fast w !! ("users/" +:+ userId) = None ->
  durable w !! ["users"; userId] = Some record ->
  rejects w (RtdbGet ("users/" +:+ userId)) = false ->
  rejects w (GetDoc ["users"; userId]) = false ->
  rejects w (RtdbUpdate ("users/" +:+ userId)) = false ->
  result (getUserData userId) w = Returned (Some record)
  /\ result (getUserData userId) (after (updateUserStatus toISOString userId time) w)
     = Returned (Some {[ "lastActiveTime" := VStr (toISOString (clock w)) ]}).
Proof.
  intros Hready Hnone Hdoc Hget Hgetdoc Hupd.
  destruct (unready_false_db _ Hready) as [_ Hrt].
  destruct (updateUserStatus_env userId time w) as [He _].
  pose proof (same_env_unready _ _ He) as Hun. rewrite Hready in Hun.
  destruct He as (_ & _ & Hr & _).
  rewrite !getUserData_result, Hready, Hun. unfold fallback_read.
  rewrite Hr, Hget, Hnone, Hgetdoc, Hdoc. split; [done|].
  rewrite updateUserStatus_effect, Hrt, Hupd. simpl.
  rewrite lookup_insert_eq, Hnone. simpl. by rewrite insert_empty.
Qed.

(** X9: [updateUserStatus] never throws and never logs, also when the
    update rejects; a rejected update leaves both stores as they were, and
    without the fast-store handle nothing at all happens, whatever the
    durable handle is. *)
Theorem updateUserStatus_is_silent (userId : string) (time : Z) (w : World) :
  let w' := after (updateUserStatus toISOString userId time) w in
  result (updateUserStatus toISOString userId time) w = Returned tt
  /\ console w' = console w
  /\ (rtdb w = false -> w' = w)
  /\ (rejects w (RtdbUpdate ("users/" +:+ userId)) = true ->
      fast w' = fast w /\ durable w' = durable w).
Proof.
  intros w'. subst w'. rewrite updateUserStatus_effect.
  unfold result, updateUserStatus. js_unfold.
  destruct (rtdb w); simpl; [|done].
  destruct (rejects w _); by repeat split.
Qed.

End ActivityAndSaves.

Lemma save_and_touch_order_witness :
  let touch := updateUserStatus utc_iso_string (id ann) 5 in
  result (getUserData (id ann)) (after (saveUserToLive ann) (after touch ready_world))
    = Returned (Some (user_object ann))
  /\ result (getUserData (id ann)) (after touch (after (saveUserToLive ann) ready_world))
     = Returned (Some (<["lastActiveTime" := VStr (utc_iso_string (clock ready_world))]>
                         (user_object ann)))
  /\ durable (after touch (after (saveUserToLive ann) ready_world)) !! ["users"; id ann]
     = Some (user_object ann).
Proof.
  apply (save_and_touch_order utc_iso_string ann 5 ready_world); reflexivity.
Defined.

Lemma touch_hides_durable_record_witness :
  let w := set_rejects (rejecting []) fast_reads_reject in
  result (getUserData "u1") w = Returned (Some (user_object ann))
  /\ result (getUserData "u1") (after (updateUserStatus utc_iso_string "u1" 5) w)
     = Returned (Some {[ "lastActiveTime" := VStr (utc_iso_string (clock w)) ]}).
Proof.
  intros w.
  apply (touch_hides_durable_record utc_iso_string "u1" 5 (user_object ann) w);
    reflexivity.
Defined.

(** ** Bulk saves *)

Lemma children_insert_in (path : string) (entries : list (string * Payload))
    (f : gmap string Payload) (k : string) (p : Payload) :
  NoDup entries.*1 ->
  In (k, p) entries ->
  foldr (fun kv g => <[path +:+ "/" +:+ kv.1 := kv.2]> g) f entries
    !! (path +:+ "/" +:+ k) = Some p.
Proof.
  induction entries as [|[k' p'] rest IH]; intros Hnd Hin; [done|].
  apply NoDup_cons in Hnd as [Hfresh Hnd]. simpl.
  destruct Hin as [[= -> ->]|Hin]; [apply lookup_insert_eq|].
  rewrite lookup_insert_ne; [by apply IH|].
  intros Heq. apply append_inj_r, append_inj_r in Heq as ->.
  apply Hfresh, list_elem_of_fmap. exists (k, p). split; [done|].
  by apply list_elem_of_In.
Qed.

Lemma children_insert_out (path : string) (entries : list (string * Payload))
    (f : gmap string Payload) (q : string) :
  (forall kv, In kv entries -> path +:+ "/" +:+ kv.1 <> q) ->
  foldr (fun kv g => <[path +:+ "/" +:+ kv.1 := kv.2]> g) f entries !! q = f !! q.
Proof.
  induction entries as [|[k' p'] rest IH]; intros Hout; [done|]. simpl.
  rewrite lookup_insert_ne by (apply (Hout (k', p')); by left).
  apply IH. intros kv Hin. apply Hout. by right.
Qed.

Lemma fan_out_same_env (entries : list (string * Payload)) (w : World) :
  same_env w (after (durable_fan_out entries) w).
Proof.
  revert w. induction entries as [|[k p] rest IH]; intros w.
  - apply same_env_refl.
  - rewrite fan_out_cons. eapply same_env_trans; [|apply IH].
    rewrite after_setDoc. destruct (rejects w _); by repeat split.
Qed.

(** The joint promise rejects exactly when one of the writes rejects. *)
Lemma fan_out_result (entries : list (string * Payload)) (w : World) :
  result (durable_fan_out entries) w
    = if existsb (fun kv => rejects w (SetDoc ["content_data"; kv.1])) entries
      then Threw else Returned tt.
Proof.
  revert w. induction entries as [|[k p] rest IH]; intros w; [done|].
  pose proof (after_setDoc ["content_data"; k] p w) as Hhead.
  specialize (IH (after (setDoc ["content_data"; k] p) w)).
  assert (rejects (after (setDoc ["content_data"; k] p) w) = rejects w) as Hrej.
  { rewrite Hhead. by destruct (rejects w _). }
  rewrite Hrej in IH.
  assert (result (setDoc ["content_data"; k] p) w
          = if rejects w (SetDoc ["content_data"; k]) then Threw else Returned tt)
    as Hres.
  { js_unfold. by destruct (rejects w _). }
  unfold result, after, durable_fan_out in *. simpl.
  destruct (setDoc ["content_data"; k] p w) as [r w1]. simpl in *.
  destruct (promise_all _ w1) as [r' w2]. simpl in *.
  rewrite Hres, IH.
  destruct (rejects w _); simpl; [done|]. by destruct (existsb _ _).
Qed.

(** What [bulkSaveLinks] does when both stores are ready. *)
Lemma bulkSaveLinks_effect (updates : gmap string Payload) (w : World) :
  unready w = false ->
  let w' := after (bulkSaveLinks updates) w in
  let entries := map_to_list updates in
  same_env w w'
  /\ fast w'
     = (if rejects w (RtdbUpdate "content_links") then fast w
        else foldr (fun kv g => <["content_links" +:+ "/" +:+ kv.1 := kv.2]> g)
                   (fast w) entries)
  /\ console w'
     = console w ++
         (if rejects w (RtdbUpdate "content_links")
             || existsb (fun kv => rejects w (SetDoc ["content_data"; kv.1])) entries
          then ["Error bulk saving links:"] else []).
Proof.
  intros Hready w' entries. subst w' entries.
  pose proof (fan_out_same_env (map_to_list updates)) as Henv.
  pose proof (fan_out_env (map_to_list updates)) as Hfan.
  pose proof (fan_out_result (map_to_list updates)) as Hres.
  assert (forall w1 : World,
             console (after (durable_fan_out (map_to_list updates)) w1) = console w1)
    as Hcon.
  { intros w1. generalize (map_to_list updates). intros l. revert w1.
    induction l as [|[k p] rest IH]; intros w1; [done|].
    rewrite fan_out_cons, IH, after_setDoc. by destruct (rejects w1 _). }
  unfold result, after, bulkSaveLinks, durable_fan_out in *. rewrite Hready.
  js_unfold.
  destruct (rejects w (RtdbUpdate "content_links")) eqn:Hbulk; simpl.
  { by repeat split. }
  set (w1 := set_fast _ (record_call _ w)) in *.
  specialize (Henv w1). specialize (Hfan w1). specialize (Hres w1).
  specialize (Hcon w1).
  destruct (promise_all _ w1) as [r w2]. simpl in *.
  destruct Hfan as (_ & Hfast & _).
  assert (same_env w w1) as He1 by (by repeat split).
  rewrite Hres.
  destruct (existsb _ _); simpl.
  - split; [by eapply same_env_trans|]. split; [done|]. by rewrite Hcon.
  - split; [by eapply same_env_trans|]. split; [done|].
    by rewrite Hcon, app_nil_r.
Qed.

(** The durable document of a key of the batch. *)
Lemma bulkSaveLinks_durable_key (updates : gmap string Payload) (k : string)
    (data : Payload) (w : World) :
  unready w = false ->
  rejects w (RtdbUpdate "content_links") = false ->
  updates !! k = Some data ->
  durable (after (bulkSaveLinks updates) w) !! ["content_data"; k]
    = if rejects w (SetDoc ["content_data"; k]) then durable w !! ["content_data"; k]
      else Some data.
Proof.
  intros Hready Hbulk Hk.
  pose proof (fan_out_per_key (map_to_list updates) k data) as Hkey.
  unfold after, bulkSaveLinks, durable_fan_out in *. rewrite Hready. js_unfold.
  rewrite Hbulk. simpl.
  set (w1 := set_fast _ (record_call _ w)) in *. specialize (Hkey w1).
  destruct (promise_all _ w1) as [r w2]. simpl in *.
  rewrite <- Hkey.
  - by destruct r.
  - apply NoDup_fst_map_to_list.
  - by apply list_elem_of_In, elem_of_map_to_list.
Qed.

(** The fast-store paths outside [content_links] are left as they were. *)
Lemma bulkSaveLinks_fast_other (updates : gmap string Payload) (path : string)
    (w : World) :
  unready w = false ->
  (forall k, path <> "content_links/" +:+ k) ->
  fast (after (bulkSaveLinks updates) w) !! path = fast w !! path.
Proof.
  intros Hready Hout.
  destruct (bulkSaveLinks_effect updates w Hready) as (_ & -> & _).
  destruct (rejects w _); [done|].
  apply children_insert_out. intros [k p] _ Heq. by apply (Hout k).
Qed.

(** X10: when the fast-store bulk update is accepted, every key of the
    batch is stored in the fast store under [content_links/<key>], and every
    fast-store path that is not such a child is left as it was. *)
Theorem bulkSaveLinks_fast_store (updates : gmap string Payload) (w : World) :
  unready w = false ->
  rejects w (RtdbUpdate "content_links") = false ->
  (forall k p, updates !! k = Some p ->
     fast (after (bulkSaveLinks updates) w) !! ("content_links/" +:+ k) = Some p)
  /\ (forall path,
        (forall k, is_Some (updates !! k) -> path <> "content_links/" +:+ k) ->
        fast (after (bulkSaveLinks updates) w) !! path = fast w !! path).
Proof.
  intros Hready Hbulk.
  destruct (bulkSaveLinks_effect updates w Hready) as (_ & Hfast & _).
  rewrite Hbulk in Hfast. rewrite Hfast. split.
  - intros k p Hk.
    apply (children_insert_in "content_links" (map_to_list updates) (fast w) k p).
    + apply NoDup_fst_map_to_list.
    + by apply list_elem_of_In, elem_of_map_to_list.
  - intros path Hout. apply children_insert_out. intros [k p] Hin Heq.
    apply list_elem_of_In, elem_of_map_to_list in Hin.
    apply (Hout k); [by exists p|]. by rewrite <- Heq.
Qed.

Lemma bulkSaveLinks_fast_store_witness :
  (forall k p, two_links !! k = Some p ->
     fast (after (bulkSaveLinks two_links) ready_world) !! ("content_links/" +:+ k)
     = Some p)
  /\ (forall path,
        (forall k, is_Some (two_links !! k) -> path <> "content_links/" +:+ k) ->
        fast (after (bulkSaveLinks two_links) ready_world) !! path
        = fast ready_world !! path).
Proof. apply (bulkSaveLinks_fast_store two_links ready_world); reflexivity. Defined.

(** X11: [bulkSaveLinks] writes the fast store under [content_links] but
    [getChapterData] reads it under [content_data].  A chapter saved in a
    batch with its durable write accepted is read back through the durable
    fallback when the fast store has no [content_data] record for it; when
    the fast store has one, that older record is what [getChapterData]
    keeps returning. *)
Theorem bulk_then_getChapterData (updates : gmap string Payload) (key : string)
    (data : Payload) (w : World) :
  unready w = false ->
  updates !! key = Some data ->
  rejects w (RtdbUpdate "content_links") = false ->
  rejects w (SetDoc ["content_data"; key]) = false ->
  rejects w (RtdbGet ("content_data/" +:+ key)) = false ->
  rejects w (GetDoc ["content_data"; key]) = false ->
  durable (after (bulkSaveLinks updates) w) !! ["content_data"; key] = Some data
  /\ result (getChapterData key) (after (bulkSaveLinks updates) w)
     = Returned (match fast w !! ("content_data/" +:+ key) with
                 | Some old => Some old
                 | None => Some data
                 end).
Proof.
  intros Hready Hkey Hbulk Hset Hget Hgetdoc.
  pose proof (bulkSaveLinks_durable_key updates key data w Hready Hbulk Hkey) as Hdoc.
  rewrite Hset in Hdoc.
  pose proof (bulkSaveLinks_fast_other updates ("content_data/" +:+ key) w Hready)
    as Hout.
  destruct (bulkSaveLinks_effect updates w Hready) as (He & _).
  pose proof (same_env_unready _ _ He) as Hun. rewrite Hready in Hun.
  destruct He as (_ & _ & Hr & _).
  split; [done|].
  rewrite getChapterData_result, Hun. unfold fallback_read.
  rewrite Hr, Hget, Hgetdoc, Hdoc.
  rewrite Hout by (intros k; apply content_not_links).
  by destruct (fast w !! _).
Qed.

(** Chapter [a] was saved on its own before the batch arrives. *)
Lemma bulk_then_getChapterData_witness :
  let w := after (saveChapterData "a" light) ready_world in
  durable (after (bulkSaveLinks two_links) w) !! ["content_data"; "a"] = Some dark
  /\ result (getChapterData "a") (after (bulkSaveLinks two_links) w)
     = Returned (match fast w !! ("content_data/" +:+ "a") with
                 | Some old => Some old
                 | None => Some dark
                 end).
Proof.
  intros w. apply (bulk_then_getChapterData two_links "a" dark w); reflexivity.
Defined.

(** X12: [bulkSaveLinks] logs one line, however many writes fail: the
    console gets ["Error bulk saving links:"] once when the fast-store
    update or the durable write of some key rejects, and nothing when every
    write is accepted. *)
Theorem bulkSaveLinks_logs_once (updates : gmap string Payload) (w : World) :
  unready w = false ->
  let w' := after (bulkSaveLinks updates) w in
  (console w' = console w \/ console w' = console w ++ ["Error bulk saving links:"])
  /\ (console w' = console w
      <-> rejects w (RtdbUpdate "content_links") = false
          /\ forall k p, updates !! k = Some p ->
                         rejects w (SetDoc ["content_data"; k]) = false).
Proof.
  intros Hready w'. subst w'.
  destruct (bulkSaveLinks_effect updates w Hready) as (_ & _ & Hc).
  rewrite Hc. clear Hc.
  assert (existsb (fun kv => rejects w (SetDoc ["content_data"; kv.1]))
                  (map_to_list updates) = false
          <-> forall k p, updates !! k = Some p ->
                          rejects w (SetDoc ["content_data"; k]) = false) as Hall.
  { split.
    - intros Hex k p Hk. apply not_true_is_false. intros Hrej.
      assert (existsb (fun kv => rejects w (SetDoc ["content_data"; kv.1]))
                      (map_to_list updates) = true) as Htrue; [|congruence].
      apply existsb_exists. exists (k, p). split; [|done].
      by apply list_elem_of_In, elem_of_map_to_list.
    - intros Hnone. apply not_true_is_false. intros Hex.
      apply existsb_exists in Hex as ([k p] & Hin & Hrej).
      apply list_elem_of_In, elem_of_map_to_list in Hin.
      simpl in Hrej. rewrite (Hnone k p Hin) in Hrej. discriminate. }
  destruct (rejects w (RtdbUpdate "content_links")); simpl.
  - split; [by right|]. split; [|by intros [? _]].
    intros Heq. apply (f_equal length) in Heq. rewrite length_app in Heq.
    simpl in Heq. lia.
  - destruct (existsb _ _) eqn:Hex; simpl.
    + split; [by right|]. split.
      * intros Heq. apply (f_equal length) in Heq. rewrite length_app in Heq.
        simpl in Heq. lia.
      * intros [_ Hnone]. apply Hall in Hnone. discriminate.
    + rewrite app_nil_r. split; [by left|]. split; [|done].
      intros _. split; [done|]. by apply Hall.
Qed.

(** The durable writes of both chapters reject: one line. *)
Lemma bulkSaveLinks_logs_once_witness :
  let w := set_rejects (rejecting [SetDoc ["content_data"; "a"];
                                   SetDoc ["content_data"; "b"]]) ready_world in
  let w' := after (bulkSaveLinks two_links) w in
  (console w' = console w \/ console w' = console w ++ ["Error bulk saving links:"])
  /\ (console w' = console w
      <-> rejects w (RtdbUpdate "content_links") = false
          /\ forall k p, two_links !! k = Some p ->
                         rejects w (SetDoc ["content_data"; k]) = false).
Proof. intros w. apply (bulkSaveLinks_logs_once two_links w). reflexivity. Defined.

(** ** Test results *)

(** X13: [saveTestResult] is guarded by the durable handle alone, never
    throws, and writes nothing but the one generated document: the fast
    store and every other durable document stay as they were, so what
    [getUserData] returns for any user is unchanged; the generated document
    holds the attempt unless the write rejects. *)
Theorem saveTestResult_frame (userId k : string) (attempt : Attempt) (w : World) :
  db w = true ->
  let w' := after (saveTestResult userId attempt) w in
  let path := ["users"; userId; "test_results";
               test_result_id (testId attempt) (clock w)] in
  result (saveTestResult userId attempt) w = Returned tt
  /\ fast w' = fast w
  /\ (forall other, other <> path -> durable w' !! other = durable w !! other)
  /\ durable w' !! path
     = (if rejects w (SetDoc path) then durable w !! path
        else Some (attempt_object attempt))
  /\ result (getUserData k) w' = result (getUserData k) w.
Proof.
  intros Hdb w' path. subst w'.
  destruct (saveTestResult_ready userId attempt w Hdb) as (Hres & _ & Hd).
  fold path in Hd.
  assert (same_env w (after (saveTestResult userId attempt) w)
          /\ fast (after (saveTestResult userId attempt) w) = fast w) as [He Hf].
  { unfold after, saveTestResult. rewrite Hdb. js_unfold.
    destruct (rejects w _); by repeat split. }
  split; [done|]. split; [done|].
  assert (forall other, other <> path ->
            durable (after (saveTestResult userId attempt) w) !! other
            = durable w !! other) as Hother.
  { intros other Hne. rewrite Hd. destruct (rejects w _); [done|].
    by rewrite lookup_insert_ne. }
  split; [done|]. split.
  - rewrite Hd. destruct (rejects w _); [done|]. apply lookup_insert_eq.
  - rewrite !getUserData_result, (same_env_unready _ _ He).
    destruct (unready w); [done|]. f_equal.
    destruct He as (_ & _ & Hr & _).
    apply fallback_read_ext; [done|by rewrite Hf|]. by apply Hother.
Qed.

(** Ann is in both stores: her test result is stored and her record is read
    back as before. *)
Lemma saveTestResult_frame_witness :
  let w' := after (saveTestResult "u1" first_try) synced_world in
  let path := ["users"; "u1"; "test_results";
               test_result_id (testId first_try) (clock synced_world)] in
  result (saveTestResult "u1" first_try) synced_world = Returned tt
  /\ fast w' = fast synced_world
  /\ (forall other, other <> path ->
        durable w' !! other = durable synced_world !! other)
  /\ durable w' !! path
     = (if rejects synced_world (SetDoc path)
        then durable synced_world !! path
        else Some (attempt_object first_try))
  /\ result (getUserData "u1") w' = result (getUserData "u1") synced_world.
Proof.
  apply (saveTestResult_frame "u1" "u1" first_try synced_world). reflexivity.
Defined.

(** ** Live subscriptions *)

(** What a subscribe helper does when both stores are ready and no listener
    is registered yet. *)
Lemma register_first (c : call) (l : listener) (w : World) :
  listeners w = [] ->
  let w1 := (register c l w).2 in
  listeners w1 = [(next_handle w, l)]
  /\ fast w1 = fast w /\ durable w1 = durable w /\ rejects w1 = rejects w
  /\ delivered w1 = delivered w /\ issued w1 = issued w ++ [c].
Proof. intros Hnone. simpl. by rewrite Hnone. Qed.

(** With one listener registered, a store event reaches that listener. *)
Lemma deliver_single (h : nat) (l : listener) (e : event) (w : World) :
  listeners w = [(h, l)] ->
  deliver e w = match e with
                | StoresChanged f d r => set_rejects r (set_durable d (set_fast f w))
                | _ => react e l w
                end.
Proof. intros Hls. destruct e; unfold deliver; by rewrite ?Hls. Qed.

Lemma subscribe_ready (key : string) (cb : nat) (w : World) :
  unready w = false ->
  subscribeToUsers cb w = register (OnSnapshot ["users"]) (UsersListener cb) w
  /\ subscribeToSettings cb w
     = register (OnSnapshot ["config"; "system_settings"]) (SettingsListener cb) w
  /\ subscribeToChapterData key cb w
     = register (RtdbOnValue ("content_data/" +:+ key)) (ChapterListener key cb) w.
Proof.
  intros Hready. unfold subscribeToUsers, subscribeToSettings, subscribeToChapterData.
  by rewrite Hready.
Qed.

(** X14: a settings subscriber is silent while neither store has settings:
    an absent durable document with no fast-store settings invokes nothing.
    After a save that the fast store accepted (also when the durable write
    rejected), an absent durable document delivers the saved settings from
    the fast store, and a present durable document is delivered as it is. *)
Theorem settings_subscription_fallback (settings doc : Payload) (cb : nat)
    (w : World) :
  unready w = false ->
  listeners w = [] ->
  fast w !! "system_settings" = None ->
  rejects w (RtdbSet "system_settings") = false ->
  rejects w (RtdbOnValueOnce "system_settings") = false ->
  let saved := after (saveSystemSettings settings) w in
  delivered (run [SettingsSnapshot None] (subscribeToSettings cb w).2) = delivered w
  /\ delivered (run [SettingsSnapshot None] (subscribeToSettings cb saved).2)
     = delivered w ++ [(cb, Data settings)]
  /\ delivered (run [SettingsSnapshot (Some doc)] (subscribeToSettings cb saved).2)
     = delivered w ++ [(cb, Data doc)].
Proof.
  intros Hready Hnone Hfast Hset Honce saved.
  destruct (saveSystemSettings_ready settings w Hready)
    as (_ & _ & Hf & _ & _ & Hun).
  pose proof (saveSystemSettings_env settings w) as (_ & _ & Hr & _ & Hls).
  fold saved in Hf, Hun, Hr, Hls. rewrite Hready in Hun. rewrite Hnone in Hls.
  unfold dual_write_fast in Hf. rewrite Hset in Hf.
  assert (delivered saved = delivered w) as Hdel.
  { subst saved. unfold after, saveSystemSettings. rewrite Hready. js_unfold.
    rewrite Hset. simpl. by destruct (rejects w (SetDoc _)). }
  destruct (subscribe_ready "" cb w Hready) as (_ & -> & _).
  destruct (subscribe_ready "" cb saved Hun) as (_ & -> & _).
  destruct (register_first (OnSnapshot ["config"; "system_settings"])
              (SettingsListener cb) w Hnone) as (L0 & F0 & _ & R0 & D0 & _).
  destruct (register_first (OnSnapshot ["config"; "system_settings"])
              (SettingsListener cb) saved Hls) as (L1 & F1 & _ & R1 & D1 & _).
  set (s0 := (register _ _ w).2) in *. set (s1 := (register _ _ saved).2) in *.
  clearbody s0 s1. unfold run. cbn [fold_left].
  rewrite (deliver_single _ _ _ _ L0), !(deliver_single _ _ _ _ L1). simpl.
  rewrite R0, R1, Hr, Honce, F0, F1, Hfast, Hf, lookup_insert_eq. simpl.
  by rewrite D0, D1, Hdel.
Qed.

Lemma settings_subscription_fallback_witness :
  let w := set_rejects (rejecting [SetDoc ["config"; "system_settings"]]) ready_world in
  let saved := after (saveSystemSettings dark) w in
  delivered (run [SettingsSnapshot None] (subscribeToSettings 7 w).2) = delivered w
  /\ delivered (run [SettingsSnapshot None] (subscribeToSettings 7 saved).2)
     = delivered w ++ [(7%nat, Data dark)]
  /\ delivered (run [SettingsSnapshot (Some light)] (subscribeToSettings 7 saved).2)
     = delivered w ++ [(7%nat, Data light)].
Proof.
  intros w. apply (settings_subscription_fallback dark light 7 w); reflexivity.
Defined.

Lemma count_occ_snoc (l : list call) (c c' : call) :
  count_occ call_eq_dec (l ++ [c']) c
    = (count_occ call_eq_dec l c + (if decide (c' = c) then 1 else 0))%nat.
Proof.
  rewrite count_occ_app. reflexivity.
Qed.

(** With one chapter subscription registered, an event issues one
    durable-store read of the chapter when it reports that the fast store
    has no value for it, and none otherwise. *)
Lemma deliver_single_chapter (h cb : nat) (key : string) (e : event) (w : World) :
  listeners w = [(h, ChapterListener key cb)] ->
  listeners (deliver e w) = [(h, ChapterListener key cb)]
  /\ chapter_reads key (deliver e w)
     = (chapter_reads key w + (if is_absent_value key e then 1 else 0))%nat.
Proof.
  intros Hls. rewrite (deliver_single _ _ _ _ Hls). unfold chapter_reads.
  destruct e as [docs|docSnap|key' snapshot|f d r]; simpl; try (split; [done|lia]).
  case_decide as Hkey; [subst key'|].
  - rewrite bool_decide_eq_true_2 by done.
    destruct snapshot; simpl; [split; [done|lia]|].
    js_unfold. destruct (rejects w _); simpl.
    + split; [done|]. by rewrite count_occ_snoc, decide_True.
    + destruct (durable w !! _); simpl; (split; [done|]);
        by rewrite count_occ_snoc, decide_True.
  - rewrite bool_decide_eq_false_2 by done.
    destruct snapshot; split; try done; lia.
Qed.

Lemma run_single_chapter (h cb : nat) (key : string) (events : list event)
    (w : World) :
  listeners w = [(h, ChapterListener key cb)] ->
  chapter_reads key (run events w)
    = (chapter_reads key w + absent_values key events)%nat.
Proof.
  revert w. induction events as [|e rest IH]; intros w Hls; simpl.
  - unfold absent_values. simpl. lia.
  - destruct (deliver_single_chapter h cb key e w Hls) as [Hls' Hcount].
    rewrite (IH _ Hls'), Hcount. unfold absent_values. simpl.
    destruct (is_absent_value key e); simpl; lia.
Qed.

(** X15: a chapter subscription reads the durable store once for every
    fast-store snapshot of its chapter that has no value, however many there
    are, and for no other event: snapshots with a value and snapshots of
    other chapters issue no read. *)
Theorem chapter_reads_per_absent_value (key : string) (cb : nat) (w : World)
    (events : list event) :
  unready w = false ->
  listeners w = [] ->
  chapter_reads key (run events (subscribeToChapterData key cb w).2)
    = (chapter_reads key w + absent_values key events)%nat.
Proof.
  intros Hready Hnone.
  destruct (subscribe_ready key cb w Hready) as (_ & _ & ->).
  destruct (register_first (RtdbOnValue ("content_data/" +:+ key))
              (ChapterListener key cb) w Hnone) as (Hls & _ & _ & _ & _ & Hiss).
  rewrite (run_single_chapter _ _ _ _ _ Hls). f_equal.
  unfold chapter_reads. rewrite Hiss, count_occ_snoc, decide_False by done. lia.
Qed.

Lemma chapter_reads_per_absent_value_witness :
  chapter_reads "ch1"
    (run [ChapterValue "ch1" None; ChapterValue "ch2" None;
          ChapterValue "ch1" (Some dark); ChapterValue "ch1" None]
         (subscribeToChapterData "ch1" 7 ready_world).2)
    = (chapter_reads "ch1" ready_world
       + absent_values "ch1"
           [ChapterValue "ch1" None; ChapterValue "ch2" None;
            ChapterValue "ch1" (Some dark); ChapterValue "ch1" None])%nat.
Proof.
  apply (chapter_reads_per_absent_value "ch1" 7 ready_world); reflexivity.
Defined.

Lemma bulkSaveLinks_delivered (updates : gmap string Payload) (w : World) :
  delivered (after (bulkSaveLinks updates) w) = delivered w
  /\ listeners (after (bulkSaveLinks updates) w) = listeners w.
Proof.
  assert (forall (l : list (string * Payload)) (w1 : World),
             delivered (after (durable_fan_out l) w1) = delivered w1) as Hfan.
  { induction l as [|[k p] rest IH]; intros w1; [done|].
    rewrite fan_out_cons, IH, after_setDoc. by destruct (rejects w1 _). }
  destruct (unready w) eqn:Hready.
  { unfold after, bulkSaveLinks. by rewrite Hready. }
  destruct (bulkSaveLinks_effect updates w Hready) as ((_ & _ & _ & _ & Hls) & _).
  split; [|done].
  specialize (Hfan (map_to_list updates)).
  unfold after, bulkSaveLinks, durable_fan_out in *. rewrite Hready. js_unfold.
  destruct (rejects w (RtdbUpdate "content_links")); simpl; [done|].
  set (w1 := set_fast _ (record_call _ w)) in *. specialize (Hfan w1).
  destruct (promise_all _ w1) as [[[]|] w2]; simpl in *; by rewrite Hfan.
Qed.

(** X16: a chapter saved in a batch reaches a chapter subscriber through
    the durable store: the batch writes nothing under the fast-store path
    the subscription listens to, and when that path reports no value the
    listener reads the durable document of the batch and delivers it. *)
Theorem bulk_reaches_chapter_subscriber (updates : gmap string Payload)
    (key : string) (data : Payload) (cb : nat) (w : World) :
  unready w = false ->
  listeners w = [] ->
  updates !! key = Some data ->
  rejects w (RtdbUpdate "content_links") = false ->
  rejects w (SetDoc ["content_data"; key]) = false ->
  rejects w (GetDoc ["content_data"; key]) = false ->
  let saved := after (bulkSaveLinks updates) w in
  fast saved !! ("content_data/" +:+ key) = fast w !! ("content_data/" +:+ key)
  /\ delivered (run [ChapterValue key None] (subscribeToChapterData key cb saved).2)
     = delivered w ++ [(cb, Data data)].
Proof.
  intros Hready Hnone Hkey Hbulk Hset Hget saved.
  pose proof (bulkSaveLinks_durable_key updates key data w Hready Hbulk Hkey) as Hdoc.
  rewrite Hset in Hdoc.
  pose proof (bulkSaveLinks_fast_other updates ("content_data/" +:+ key) w Hready)
    as Hout.
  destruct (bulkSaveLinks_effect updates w Hready) as (He & _).
  destruct (bulkSaveLinks_delivered updates w) as [Hdel Hls].
  pose proof (same_env_unready _ _ He) as Hun. rewrite Hready in Hun.
  destruct He as (_ & _ & Hr & _).
  fold saved in Hdoc, Hout, Hdel, Hls, Hun, Hr. rewrite Hnone in Hls.
  split; [apply Hout; intros k; apply content_not_links|].
  destruct (subscribe_ready key cb saved Hun) as (_ & _ & ->).
  destruct (register_first (RtdbOnValue ("content_data/" +:+ key))
              (ChapterListener key cb) saved Hls) as (L1 & _ & D1 & R1 & Dl1 & _).
  set (s1 := (register _ _ saved).2) in *. clearbody s1.
  unfold run. cbn [fold_left]. rewrite (deliver_single _ _ _ _ L1). simpl.
  rewrite decide_True by done. unfold chapter_listener. js_unfold.
  rewrite R1, Hr, Hget, D1, Hdoc. simpl. by rewrite Dl1, Hdel.
Qed.

Lemma bulk_reaches_chapter_subscriber_witness :
  let saved := after (bulkSaveLinks two_links) ready_world in
  fast saved !! ("content_data/" +:+ "a") = fast ready_world !! ("content_data/" +:+ "a")
  /\ delivered (run [ChapterValue "a" None] (subscribeToChapterData "a" 7 saved).2)
     = delivered ready_world ++ [(7%nat, Data dark)].
Proof.
  apply (bulk_reaches_chapter_subscriber two_links "a" dark 7 ready_world);
    reflexivity.
Defined.

(** With one users subscription registered and the one-shot read accepted,
    a snapshot of the users collection invokes the callback once, and no
    other event invokes it. *)
Lemma deliver_single_users_callback (h cb : nat) (e : event) (w : World) :
  listeners w = [(h, UsersListener cb)] ->
  rejects w (RtdbOnValueOnce "users") = false ->
  keeps_users_fallback e = true ->
  listeners (deliver e w) = [(h, UsersListener cb)]
  /\ rejects (deliver e w) (RtdbOnValueOnce "users") = false
  /\ length (deliveries_to cb (deliver e w))
     = (length (deliveries_to cb w) + (if is_users_snapshot e then 1 else 0))%nat.
Proof.
  intros Hls Hrej Hkeep. rewrite (deliver_single _ _ _ _ Hls).
  unfold deliveries_to.
  destruct e as [docs|docSnap|key snapshot|f d r]; simpl;
    try (repeat split; try done; lia).
  - destruct docs; simpl; rewrite ?Hrej; simpl;
      rewrite List.filter_app, length_app; simpl; by rewrite Nat.eqb_refl.
  - simpl in Hkeep. split; [done|]. split; [by apply negb_true_iff|]. lia.
Qed.

(** X17: as long as the one-shot fast-store read is not rejected, a users
    subscription invokes the callback exactly once for every snapshot of the
    users collection, empty or not, and for nothing else. *)
Theorem users_callback_per_snapshot (cb : nat) (w : World) (events : list event) :
  unready w = false ->
  listeners w = [] ->
  rejects w (RtdbOnValueOnce "users") = false ->
  forallb keeps_users_fallback events = true ->
  length (deliveries_to cb (run events (subscribeToUsers cb w).2))
    = (length (deliveries_to cb w)
       + length (List.filter is_users_snapshot events))%nat.
Proof.
  intros Hready Hnone Hrej Hkeep.
  destruct (subscribe_ready "" cb w Hready) as (-> & _).
  destruct (register_first (OnSnapshot ["users"]) (UsersListener cb) w Hnone)
    as (Hls & _ & _ & Hr & Hdel & _).
  set (w1 := (register _ _ w).2) in *.
  assert (length (deliveries_to cb w1) = length (deliveries_to cb w)) as <-.
  { unfold deliveries_to. by rewrite Hdel. }
  rewrite <- Hr in Hrej. clearbody w1. clear Hr Hdel.
  revert w1 Hls Hrej. induction events as [|e rest IH]; intros w1 Hls Hrej; simpl.
  - lia.
  - apply andb_true_iff in Hkeep as [Hke Hkrest].
    destruct (deliver_single_users_callback _ cb e w1 Hls Hrej Hke)
      as (Hls' & Hrej' & Hcount).
    rewrite (IH Hkrest _ Hls' Hrej'), Hcount.
    destruct (is_users_snapshot e); simpl; lia.
Qed.

Lemma users_callback_per_snapshot_witness :
  length (deliveries_to 7
            (run [UsersSnapshot []; SettingsSnapshot None;
                  UsersSnapshot [user_object ann]; UsersSnapshot []]
                 (subscribeToUsers 7 migrating_world).2))
    = (length (deliveries_to 7 migrating_world)
       + length (List.filter is_users_snapshot
                   [UsersSnapshot []; SettingsSnapshot None;
                    UsersSnapshot [user_object ann]; UsersSnapshot []]))%nat.
Proof.
  apply (users_callback_per_snapshot 7 migrating_world); reflexivity.
Defined.

Lemma prefix_append (a b : string) : String.prefix a (a +:+ b) = true.
Proof.
  induction a as [|c a IH]; [by destruct b|].
  change (String c a +:+ b) with (String c (a +:+ b)). simpl.
  destruct (ascii_dec c c); [exact IH|done].
Qed.

(** The objects [children] lists. *)
Lemma children_elem (path : string) (f : gmap string Payload) (p : Payload) :
  In p (children path f)
  <-> exists key, String.prefix (path +:+ "/") key = true /\ f !! key = Some p.
Proof.
  unfold children. rewrite <- list_elem_of_In, list_elem_of_fmap. split.
  - intros ([key p'] & -> & Hin).
    apply list_elem_of_In, filter_In in Hin as [Hin Hpre].
    apply list_elem_of_In, elem_of_map_to_list in Hin. by exists key.
  - intros (key & Hpre & Hkey). exists (key, p). split; [done|].
    apply list_elem_of_In, filter_In. split; [|done].
    by apply list_elem_of_In, elem_of_map_to_list.
Qed.

(** X18: the migration path.  When the durable users collection is empty,
    a users subscriber gets the users of the fast store instead: after a
    save that the fast store accepted (also when the durable write
    rejected), an empty snapshot delivers a list that holds the saved user;
    and with no user in the fast store either, the callback is still
    invoked, with the empty list. *)
Theorem users_subscription_migration (user : User) (cb : nat) (w : World) :
  unready w = false ->
  listeners w = [] ->
  rejects w (RtdbSet ("users/" +:+ id user)) = false ->
  rejects w (RtdbOnValueOnce "users") = false ->
  let saved := after (saveUserToLive user) w in
  (exists users,
     delivered (run [UsersSnapshot []] (subscribeToUsers cb saved).2)
       = delivered w ++ [(cb, Users users)]
     /\ In (user_object user) users)
  /\ (fast w = ∅ ->
      delivered (run [UsersSnapshot []] (subscribeToUsers cb w).2)
        = delivered w ++ [(cb, Users [])]).
Proof.
  intros Hready Hnone Hset Honce saved.
  destruct (saveUserToLive_ready user w Hready) as (_ & _ & Hf & _ & _ & Hun).
  pose proof (saveUserToLive_env user w) as (_ & _ & Hr & _ & Hls).
  fold saved in Hf, Hun, Hr, Hls. rewrite Hready in Hun. rewrite Hnone in Hls.
  unfold dual_write_fast in Hf. rewrite Hset in Hf.
  assert (delivered saved = delivered w) as Hdel.
  { subst saved. unfold after, saveUserToLive. rewrite Hready. js_unfold.
    rewrite Hset. simpl. by destruct (rejects w (SetDoc _)). }
  destruct (subscribe_ready "" cb w Hready) as (-> & _).
  destruct (subscribe_ready "" cb saved Hun) as (-> & _).
  destruct (register_first (OnSnapshot ["users"]) (UsersListener cb) w Hnone)
    as (L0 & F0 & _ & R0 & D0 & _).
  destruct (register_first (OnSnapshot ["users"]) (UsersListener cb) saved Hls)
    as (L1 & F1 & _ & R1 & D1 & _).
  set (s0 := (register _ _ w).2) in *. set (s1 := (register _ _ saved).2) in *.
  clearbody s0 s1. unfold run. cbn [fold_left].
  rewrite (deliver_single _ _ _ _ L0), (deliver_single _ _ _ _ L1). simpl.
  rewrite R0, R1, Hr, Honce. simpl. rewrite F0, F1, D0, D1, Hdel. split.
  - eexists. split; [done|]. apply children_elem.
    exists ("users/" +:+ id user). split; [apply (prefix_append "users/")|].
    rewrite Hf.
    apply lookup_insert_eq.
  - intros ->. unfold children. by rewrite map_to_list_empty.
Qed.

Lemma users_subscription_migration_witness :
  let w := set_rejects (rejecting [SetDoc ["users"; "u1"]]) ready_world in
  let saved := after (saveUserToLive ann) w in
  (exists users,
     delivered (run [UsersSnapshot []] (subscribeToUsers 7 saved).2)
       = delivered w ++ [(7%nat, Users users)]
     /\ In (user_object ann) users)
  /\ (fast w = ∅ ->
      delivered (run [UsersSnapshot []] (subscribeToUsers 7 w).2)
        = delivered w ++ [(7%nat, Users [])]).
Proof.
  intros w. apply (users_subscription_migration ann 7 w); reflexivity.
Defined.

(** ** The lesson view *)

(** The score is defined when every answered index is a question, and it
    is at most the number of answers. *)
Lemma score_defined (data : list LessonView.MCQItem)
    (answers : gmap nat (option nat)) :
  (forall idx answer, answers !! idx = Some answer -> is_Some (data !! idx)) ->
  exists n, LessonView.score data answers = Some n /\ (n <= size answers)%nat.
Proof.
  unfold LessonView.score.
  apply (map_fold_weak_ind
           (fun r m => (forall idx answer, m !! idx = Some answer -> is_Some (data !! idx))
                       -> exists n, r = Some n /\ (n <= size m)%nat)).
  - intros _. exists 0%nat. by rewrite map_size_empty.
  - intros idx answer m r Hfresh IH Hin.
    destruct IH as (n & -> & Hle).
    { intros idx' answer' Hm. apply (Hin idx' answer').
      rewrite lookup_insert_ne; [done|]. intros ->. congruence. }
    destruct (Hin idx answer) as [q ->]; [apply lookup_insert_eq|].
    eexists. split; [done|]. rewrite map_size_insert_None by done.
    destruct (LessonView.isCorrect answer q); lia.
Qed.

Lemma answers_bounded (len : nat) (answers : gmap nat (option nat)) :
  (forall idx answer, answers !! idx = Some answer -> (idx < len)%nat) ->
  (size answers <= len)%nat.
Proof.
  intros Hin. rewrite <- size_dom.
  rewrite <- (size_set_seq (C := gset nat) 0 len).
  apply subseteq_size. intros idx Hidx.
  apply elem_of_dom in Hidx as [answer Hidx].
  apply elem_of_set_seq. split; [lia|]. simpl. by apply (Hin idx answer).
Qed.

Lemma render_mcq (p : LessonView.Props) (st : LessonView.State)
    (data : list LessonView.MCQItem) (n : nat) :
  LessonView.render p st = Some (LessonView.McqTest data n) ->
  exists c, LessonView.lesson p = Some c /\ LessonView.mcqData c = Some data
            /\ LessonView.score data (LessonView.mcqState st) = Some n.
Proof.
  unfold LessonView.render. destruct (LessonView.loading p); [done|].
  destruct (LessonView.lesson p) as [c|] eqn:Hc; [|done].
  destruct (LessonView.isComingSoon c); [done|].
  destruct (LessonView.isMcq c).
  - destruct (LessonView.mcqData c) as [data'|] eqn:Hdata.
    + destruct (LessonView.score data' _) as [n'|] eqn:Hscore; [|done].
      intros [= <- <-]. by exists c.
    + destruct (LessonView.isVideo c); [by destruct (LessonView.currentVideo p st)|].
      destruct (LessonView.isPdf c); [by destruct (String.eqb _ _)|].
      destruct (LessonView.isHtml c); [by destruct (String.eqb _ _)|done].
  - destruct (LessonView.isVideo c); [by destruct (LessonView.currentVideo p st)|].
    destruct (LessonView.isPdf c); [by destruct (String.eqb _ _)|].
    destruct (LessonView.isHtml c); [by destruct (String.eqb _ _)|done].
Qed.

(** What one event does to the answers and to the flag. *)
Lemma step_mcq (p : LessonView.Props) (st : LessonView.State) (e : LessonView.event) :
  let st' := (LessonView.step p st e).1 in
  (LessonView.mcqState st' = LessonView.mcqState st
   \/ exists c data q idx oIdx n,
        e = LessonView.ClickOption idx oIdx
        /\ LessonView.lesson p = Some c /\ LessonView.mcqData c = Some data
        /\ data !! idx = Some q /\ (oIdx < length (LessonView.options q))%nat
        /\ LessonView.isAnswered st idx = false
        /\ LessonView.showResults st = false
        /\ LessonView.score data (LessonView.mcqState st) = Some n
        /\ LessonView.mcqState st' = <[idx := Some oIdx]> (LessonView.mcqState st)).
Proof.
  unfold LessonView.step.
  destruct (LessonView.render p st) as [v|] eqn:Hrender; [|by left].
  destruct v; try (by left).
  - apply render_mcq in Hrender as (c & Hc & Hdata & Hscore).
    destruct e as [idx oIdx| | |]; try (by left).
    + destruct (data !! idx) as [q|] eqn:Hq; [|by left].
      destruct (Nat.ltb oIdx _) eqn:Hlt; simpl; [|by left].
      destruct (LessonView.isAnswered st idx) eqn:Hans; simpl; [by left|].
      destruct (LessonView.showResults st) eqn:Hshow; simpl; [by left|].
      right. exists c, data, q, idx, oIdx, score.
      apply Nat.ltb_lt in Hlt. by repeat split.
    + destruct (_ && _); by left.
  - destruct e; try (by left).
    + destruct (Nat.ltb _ _); by left.
    + destruct (_ && _); by left.
Qed.

Lemma step_valid (p : LessonView.Props) (st : LessonView.State) (e : LessonView.event) :
  answers_valid p st -> answers_valid p (LessonView.step p st e).1.
Proof.
  intros Hvalid.
  destruct (step_mcq p st e)
    as [Hsame|(c & data & q & idx & oIdx & n & _ & Hc & Hdata & Hq & Hlt & _ & _ & _ & Hnew)];
    unfold answers_valid.
  - rewrite Hsame. apply Hvalid.
  - rewrite Hnew. intros idx' answer Hlook.
    destruct (decide (idx = idx')) as [<-|Hne].
    + rewrite lookup_insert_eq in Hlook. injection Hlook as <-.
      by exists c, data, q, oIdx.
    + rewrite lookup_insert_ne in Hlook by done. by apply Hvalid.
Qed.

Lemma run_cons (p : LessonView.Props) (e : LessonView.event)
    (rest : list LessonView.event) (st : LessonView.State) :
  LessonView.run p (e :: rest) st
    = ((LessonView.run p rest (LessonView.step p st e).1).1,
       (LessonView.step p st e).2 ++ (LessonView.run p rest (LessonView.step p st e).1).2).
Proof.
  simpl. destruct (LessonView.step p st e) as [st1 out1]. simpl.
  by destruct (LessonView.run p rest st1).
Qed.

Lemma run_valid (p : LessonView.Props) (events : list LessonView.event)
    (st : LessonView.State) :
  answers_valid p st -> answers_valid p (LessonView.run p events st).1.
Proof.
  revert st. induction events as [|e rest IH]; intros st Hvalid; [done|].
  rewrite run_cons. simpl. apply IH. by apply step_valid.
Qed.

(** X19: whatever the user clicks, every recorded answer is an option of a
    question of the lesson and is never [null]; so the render never throws,
    and the score of an MCQ lesson is defined, is at most the number of
    answered questions, and that is at most the number of questions. *)
Theorem mcq_answers_stay_valid (p : LessonView.Props)
    (events : list LessonView.event) :
  let st := (LessonView.run p events LessonView.initial).1 in
  answers_valid p st
  /\ (exists v, LessonView.render p st = Some v)
  /\ (forall c data,
        LessonView.lesson p = Some c -> LessonView.mcqData c = Some data ->
        exists n, LessonView.score data (LessonView.mcqState st) = Some n
                  /\ (n <= size (LessonView.mcqState st))%nat
                  /\ (size (LessonView.mcqState st) <= length data)%nat).
Proof.
  intros st.
  assert (answers_valid p st) as Hvalid.
  { apply run_valid. intros idx answer Hlook. simpl in Hlook.
    by rewrite lookup_empty in Hlook. }
  assert (forall c data,
            LessonView.lesson p = Some c -> LessonView.mcqData c = Some data ->
            exists n, LessonView.score data (LessonView.mcqState st) = Some n
                      /\ (n <= size (LessonView.mcqState st))%nat
                      /\ (size (LessonView.mcqState st) <= length data)%nat) as Hscore.
  { intros c data Hc Hdata.
    assert (forall idx answer, LessonView.mcqState st !! idx = Some answer ->
                               is_Some (data !! idx)) as Hin.
    { intros idx answer Hlook.
      destruct (Hvalid idx answer Hlook) as (c' & data' & q & oIdx & Hc' & Hd' & Hq & _).
      rewrite Hc in Hc'. injection Hc' as <-. rewrite Hdata in Hd'.
      injection Hd' as <-. by exists q. }
    destruct (score_defined data _ Hin) as (n & Hn & Hle).
    exists n. split; [done|]. split; [done|].
    apply answers_bounded. intros idx answer Hlook.
    destruct (Hin idx answer Hlook) as [q Hq]. by apply lookup_lt_Some in Hq. }
  split; [done|]. split; [|done].
  unfold LessonView.render. destruct (LessonView.loading p); [by eexists|].
  destruct (LessonView.lesson p) as [c|] eqn:Hc; [|by eexists].
  destruct (LessonView.isComingSoon c); [by eexists|].
  assert (exists v,
            (if LessonView.isVideo c
             then match LessonView.currentVideo p st with
                  | Some video => Some (LessonView.VideoPlayer video)
                  | None => Some LessonView.VideoUnavailable
                  end
             else if LessonView.isPdf c
                  then if String.eqb (LessonView.content c) ""
                       then Some LessonView.InvalidPdfLink
                       else Some LessonView.PdfViewer
                  else if LessonView.isHtml c
                       then if String.eqb (LessonView.content c) ""
                            then Some LessonView.NoContentAvailable
                            else Some LessonView.HtmlNotes
                       else Some LessonView.MarkdownNotes) = Some v) as Hother.
  { destruct (LessonView.isVideo c);
      [destruct (LessonView.currentVideo p st); by eexists|].
    destruct (LessonView.isPdf c); [destruct (String.eqb _ _); by eexists|].
    destruct (LessonView.isHtml c); [destruct (String.eqb _ _); by eexists|].
    by eexists. }
  destruct (LessonView.isMcq c); [|done].
  destruct (LessonView.mcqData c) as [data|] eqn:Hdata; [|done].
  destruct (Hscore c data eq_refl Hdata) as (n & -> & _). by eexists.
Qed.

(** What one event does to the results flag and what it reports. *)
Lemma step_finish (p : LessonView.Props) (st : LessonView.State) (e : LessonView.event) :
  let st' := (LessonView.step p st e).1 in
  let out := (LessonView.step p st e).2 in
  (LessonView.showResults st' = LessonView.showResults st /\ out = [])
  \/ (e = LessonView.ClickFinish
      /\ LessonView.showResults st = false
      /\ LessonView.showResults st' = true
      /\ LessonView.mcqState st' = LessonView.mcqState st
      /\ size (LessonView.mcqState st) <> 0%nat
      /\ exists c data n,
           LessonView.lesson p = Some c /\ LessonView.mcqData c = Some data
           /\ LessonView.score data (LessonView.mcqState st) = Some n
           /\ out = if LessonView.onMCQComplete p then [n] else []).
Proof.
  unfold LessonView.step.
  destruct (LessonView.render p st) as [v|] eqn:Hrender; [|by left].
  destruct v; try (by left).
  - apply render_mcq in Hrender as (c & Hc & Hdata & Hscore).
    destruct e as [idx oIdx| | |]; try (by left).
    + destruct (data !! idx) as [q|]; [|by left].
      destruct (_ && _); by left.
    + destruct (LessonView.showResults st) eqn:Hshow; simpl; [by left|].
      destruct (Nat.eqb _ 0) eqn:Hsize; simpl; [by left|].
      right. apply Nat.eqb_neq in Hsize. repeat split; try done.
      by exists c, data, score.
  - destruct e; try (by left).
    + destruct (Nat.ltb _ _); by left.
    + destruct (_ && _); by left.
Qed.

Lemma step_keeps_answer (p : LessonView.Props) (st : LessonView.State)
    (e : LessonView.event) (idx : nat) (answer : option nat) :
  answers_valid p st ->
  LessonView.mcqState st !! idx = Some answer ->
  LessonView.mcqState (LessonView.step p st e).1 !! idx = Some answer.
Proof.
  intros Hvalid Hlook.
  destruct (step_mcq p st e)
    as [->|(c & data & q & idx' & oIdx & n & _ & _ & _ & _ & _ & Hfree & _ & _ & ->)];
    [done|].
  destruct (decide (idx' = idx)) as [->|Hne]; [|by rewrite lookup_insert_ne].
  destruct (Hvalid idx answer Hlook) as (_ & _ & _ & oIdx' & _ & _ & _ & -> & _).
  unfold LessonView.isAnswered in Hfree. by rewrite Hlook in Hfree.
Qed.

Lemma step_frozen (p : LessonView.Props) (st : LessonView.State) (e : LessonView.event) :
  LessonView.showResults st = true ->
  LessonView.mcqState (LessonView.step p st e).1 = LessonView.mcqState st
  /\ LessonView.showResults (LessonView.step p st e).1 = true
  /\ (LessonView.step p st e).2 = [].
Proof.
  intros Hshown.
  destruct (step_mcq p st e)
    as [Hsame|(c & data & q & idx' & oIdx & n & _ & _ & _ & _ & _ & _ & Hshow & _)];
    [|congruence].
  destruct (step_finish p st e) as [[Hflag Hout]|(_ & Hshow & _)]; [|congruence].
  by rewrite Hflag.
Qed.

(** X20: answers are final.  Once a question is answered its recorded
    answer never changes, whatever is clicked afterwards; and once the
    results are shown no answer is added, the results stay shown and nothing
    more is reported. *)
Theorem answers_are_final (p : LessonView.Props)
    (before later : list LessonView.event) (idx : nat) (answer : option nat) :
  let st1 := (LessonView.run p before LessonView.initial).1 in
  let st2 := (LessonView.run p later st1).1 in
  LessonView.mcqState st1 !! idx = Some answer ->
  LessonView.mcqState st2 !! idx = Some answer
  /\ (LessonView.showResults st1 = true ->
      LessonView.mcqState st2 = LessonView.mcqState st1
      /\ LessonView.showResults st2 = true
      /\ (LessonView.run p later st1).2 = []).
Proof.
  intros st1 st2 Hlook. subst st2.
  assert (answers_valid p st1) as Hvalid.
  { apply run_valid. intros idx' answer' Hnone. simpl in Hnone.
    by rewrite lookup_empty in Hnone. }
  clearbody st1. split.
  - revert st1 Hvalid Hlook. induction later as [|e rest IH]; intros st1 Hvalid Hlook;
      [done|].
    rewrite run_cons. simpl. apply IH; [by apply step_valid|].
    by apply step_keeps_answer.
  - clear Hvalid Hlook. revert st1.
    induction later as [|e rest IH]; intros st1 Hshown; [done|].
    rewrite run_cons. simpl.
    destruct (step_frozen p st1 e Hshown) as (Hm & Hs & Ho).
    destruct (IH _ Hs) as (Hm' & Hs' & Ho').
    by rewrite Hm', Hm, Hs', Ho, Ho'.
Qed.

(** X21: the score is reported at most once.  After any run of events,
    either the results are not shown and nothing was reported, or they are
    shown, at least one question is answered, and what was reported is the
    score now on screen, once, when [onMCQComplete] is given. *)
Theorem score_reported_once (p : LessonView.Props) (events : list LessonView.event) :
  let st := (LessonView.run p events LessonView.initial).1 in
  let out := (LessonView.run p events LessonView.initial).2 in
  (LessonView.showResults st = false /\ out = [])
  \/ (LessonView.showResults st = true
      /\ size (LessonView.mcqState st) <> 0%nat
      /\ exists c data n,
           LessonView.lesson p = Some c /\ LessonView.mcqData c = Some data
           /\ LessonView.score data (LessonView.mcqState st) = Some n
           /\ out = if LessonView.onMCQComplete p then [n] else []).
Proof.
  intros st out. subst st out.
  assert (forall st0 out0,
            (LessonView.showResults st0 = false /\ out0 = [])
            \/ (LessonView.showResults st0 = true
                /\ size (LessonView.mcqState st0) <> 0%nat
                /\ exists c data n,
                     LessonView.lesson p = Some c /\ LessonView.mcqData c = Some data
                     /\ LessonView.score data (LessonView.mcqState st0) = Some n
                     /\ out0 = if LessonView.onMCQComplete p then [n] else []) ->
            let st := (LessonView.run p events st0).1 in
            let out := out0 ++ (LessonView.run p events st0).2 in
            (LessonView.showResults st = false /\ out = [])
            \/ (LessonView.showResults st = true
                /\ size (LessonView.mcqState st) <> 0%nat
                /\ exists c data n,
                     LessonView.lesson p = Some c /\ LessonView.mcqData c = Some data
                     /\ LessonView.score data (LessonView.mcqState st) = Some n
                     /\ out = if LessonView.onMCQComplete p then [n] else [])) as Hgen.
  { induction events as [|e rest IH]; intros st0 out0 Hinv; cbv zeta.
    { simpl. by rewrite app_nil_r. }
    rewrite run_cons. cbn [fst snd]. rewrite app_assoc. apply IH.
    destruct Hinv as [[Hhidden ->]|(Hshown & Hsize & c & data & n & Hc & Hd & Hn & ->)].
    - destruct (step_finish p st0 e)
        as [[Hflag ->]|(_ & _ & Hflag & Hm & Hsize & c & data & n & Hc & Hd & Hn & ->)].
      + left. by rewrite Hflag.
      + right. rewrite Hm. split; [done|]. split; [done|]. by exists c, data, n.
    - destruct (step_frozen p st0 e Hshown) as (Hm & Hs & ->).
      right. rewrite Hm, app_nil_r. split; [done|]. split; [done|].
      by exists c, data, n. }
  apply (Hgen LessonView.initial []). by left.
Qed.

(** The first question is answered with its second option; a later click
    on its first option and the submit change nothing for it. *)
Lemma answers_are_final_witness :
  let st1 := (LessonView.run quiz [LessonView.ClickOption 0 1] LessonView.initial).1 in
  let st2 := (LessonView.run quiz [LessonView.ClickOption 0 0; LessonView.ClickFinish]
                st1).1 in
  LessonView.mcqState st2 !! 0%nat = Some (Some 1%nat)
  /\ (LessonView.showResults st1 = true ->
      LessonView.mcqState st2 = LessonView.mcqState st1
      /\ LessonView.showResults st2 = true
      /\ (LessonView.run quiz [LessonView.ClickOption 0 0; LessonView.ClickFinish]
            st1).2 = []).
Proof.
  apply (answers_are_final quiz [LessonView.ClickOption 0 1]
           [LessonView.ClickOption 0 0; LessonView.ClickFinish] 0 (Some 1%nat)).
  reflexivity.
Defined.

(** The reduction of the score does not depend on the order of the keys. *)
Lemma score_insert (data : list LessonView.MCQItem)
    (answers : gmap nat (option nat)) (idx : nat) (answer : option nat)
    (q : LessonView.MCQItem) (n : nat) :
  answers !! idx = None ->
  data !! idx = Some q ->
  LessonView.score data answers = Some n ->
  LessonView.score data (<[idx := answer]> answers)
    = Some (n + (if LessonView.isCorrect answer q then 1 else 0))%nat.
Proof.
  intros Hfresh Hq Hscore. unfold LessonView.score in *.
  rewrite map_fold_insert_L; [by rewrite Hscore, Hq| |done].
  intros j1 j2 z1 z2 y _ _ _.
  destruct (data !! j1), (data !! j2), y; simpl; try done.
  f_equal. lia.
Qed.

(** X22: answering a question that is not answered yet adds one to the
    score on screen when the chosen option is the correct answer, and
    leaves the score as it is otherwise. *)
Theorem answer_updates_score (p : LessonView.Props) (st : LessonView.State)
    (data : list LessonView.MCQItem) (n idx oIdx : nat) (q : LessonView.MCQItem) :
  LessonView.render p st = Some (LessonView.McqTest data n) ->
  data !! idx = Some q ->
  (oIdx < length (LessonView.options q))%nat ->
  LessonView.mcqState st !! idx = None ->
  LessonView.showResults st = false ->
  LessonView.render p (LessonView.step p st (LessonView.ClickOption idx oIdx)).1
    = Some (LessonView.McqTest data
              (n + (if Z.eqb (Z.of_nat oIdx) (LessonView.correctAnswer q)
                    then 1 else 0))%nat).
Proof.
  intros Hrender Hq Hlt Hfresh Hshow.
  pose proof (render_mcq p st data n Hrender) as (c & Hc & Hdata & Hscore).
  assert ((LessonView.step p st (LessonView.ClickOption idx oIdx)).1
          = LessonView.set_mcqState (<[idx := Some oIdx]> (LessonView.mcqState st)) st)
    as ->.
  { unfold LessonView.step. rewrite Hrender, Hq.
    apply Nat.ltb_lt in Hlt. rewrite Hlt.
    unfold LessonView.isAnswered. by rewrite Hfresh, Hshow. }
  pose proof (score_insert data _ idx (Some oIdx) q n Hfresh Hq Hscore) as Hnew.
  revert Hrender. unfold LessonView.render. simpl.
  destruct (LessonView.loading p); [done|]. rewrite Hc.
  destruct (LessonView.isComingSoon c); [done|].
  destruct (LessonView.isMcq c).
  - rewrite Hdata, Hscore, Hnew. done.
  - destruct (LessonView.isVideo c).
    + unfold LessonView.currentVideo. simpl.
      by destruct (LessonView.playlist p !! _).
    + destruct (LessonView.isPdf c); [by destruct (String.eqb _ _)|].
      destruct (LessonView.isHtml c); [by destruct (String.eqb _ _)|done].
Qed.

Lemma answer_updates_score_witness :
  LessonView.render quiz
    (LessonView.step quiz LessonView.initial (LessonView.ClickOption 0 1)).1
    = Some (LessonView.McqTest
              [LessonView.mkMCQItem "1 + 1" ["1"; "2"; "3"] 1 "";
               LessonView.mkMCQItem "2 + 2" ["4"; "5"] 0 ""]
              (0 + (if Z.eqb (Z.of_nat 1)
                         (LessonView.correctAnswer
                            (LessonView.mkMCQItem "1 + 1" ["1"; "2"; "3"] 1 ""))
                    then 1 else 0))%nat).
Proof.
  apply (answer_updates_score quiz LessonView.initial
           [LessonView.mkMCQItem "1 + 1" ["1"; "2"; "3"] 1 "";
            LessonView.mkMCQItem "2 + 2" ["4"; "5"] 0 ""]
           0 0 1 (LessonView.mkMCQItem "1 + 1" ["1"; "2"; "3"] 1 ""));
    try reflexivity.
  simpl. lia.
Defined.

(** What one event does to the video index. *)
Lemma step_video (p : LessonView.Props) (st : LessonView.State) (e : LessonView.event) :
  (LessonView.currentVideoIndex st < length (LessonView.playlist p))%nat ->
  (LessonView.currentVideoIndex (LessonView.step p st e).1
   < length (LessonView.playlist p))%nat.
Proof.
  intros Hin. unfold LessonView.step.
  destruct (LessonView.render p st) as [v|]; [|done].
  destruct v; try done.
  - destruct e as [idx oIdx| | |]; try done.
    + destruct (data !! idx); [|done]. by destruct (_ && _).
    + by destruct (_ && _).
  - destruct e; try done.
    + destruct (Nat.ltb _ _) eqn:Hlt; [|done]. apply Nat.ltb_lt in Hlt. simpl. lia.
    + destruct (Nat.ltb 1 _); simpl; [|done].
      destruct (Nat.ltb idx _) eqn:Hlt; [|done]. by apply Nat.ltb_lt in Hlt.
Qed.

(** X23: a video lecture that has a playlist or a single video address
    always shows a player: whatever is clicked and however often a video
    ends, the video index stays within the playlist, so the current video is
    never missing; and when the last video ends the index stays on it. *)
Theorem video_index_in_range (p : LessonView.Props) (c : LessonView.LessonContent)
    (events : list LessonView.event) :
  LessonView.lesson p = Some c ->
  LessonView.loading p = false ->
  LessonView.isComingSoon c = false ->
  LessonView.isVideo c = true ->
  LessonView.playlist p <> [] ->
  let st := (LessonView.run p events LessonView.initial).1 in
  (LessonView.currentVideoIndex st < length (LessonView.playlist p))%nat
  /\ (exists video,
        LessonView.playlist p !! LessonView.currentVideoIndex st = Some video
        /\ LessonView.render p st = Some (LessonView.VideoPlayer video))
  /\ (LessonView.currentVideoIndex st = (length (LessonView.playlist p) - 1)%nat ->
      LessonView.step p st LessonView.VideoEnded = (st, [])).
Proof.
  intros Hc Hload Hsoon Hvideo Hlist st.
  assert (LessonView.currentVideoIndex st < length (LessonView.playlist p))%nat as Hin.
  { subst st.
    assert (LessonView.currentVideoIndex LessonView.initial
            < length (LessonView.playlist p))%nat as Hinit.
    { simpl. destruct (LessonView.playlist p); [done|simpl; lia]. }
    generalize dependent LessonView.initial.
    induction events as [|e rest IH]; intros st0 Hst0; [done|].
    rewrite run_cons. simpl. apply IH. by apply step_video. }
  destruct (lookup_lt_is_Some_2 _ _ Hin) as [video Hlook].
  assert (LessonView.render p st = Some (LessonView.VideoPlayer video)) as Hrender.
  { unfold LessonView.render, LessonView.currentVideo.
    rewrite Hload, Hc, Hsoon, Hvideo, Hlook.
    unfold LessonView.isVideo in Hvideo. apply String.eqb_eq in Hvideo.
    unfold LessonView.isMcq. by rewrite Hvideo. }
  split; [done|]. split; [by exists video|].
  intros Hlast. unfold LessonView.step. rewrite Hrender, Hlast.
  by rewrite Nat.ltb_irrefl.
Qed.

Lemma video_index_in_range_witness :
  let st := (LessonView.run lecture
               [LessonView.VideoEnded; LessonView.VideoEnded;
                LessonView.ClickPlaylistItem 5]
               LessonView.initial).1 in
  (LessonView.currentVideoIndex st < length (LessonView.playlist lecture))%nat
  /\ (exists video,
        LessonView.playlist lecture !! LessonView.currentVideoIndex st = Some video
        /\ LessonView.render lecture st = Some (LessonView.VideoPlayer video))
  /\ (LessonView.currentVideoIndex st
      = (length (LessonView.playlist lecture) - 1)%nat ->
      LessonView.step lecture st LessonView.VideoEnded = (st, [])).
Proof.
  apply (video_index_in_range lecture
           (LessonView.mkLessonContent "c2" "VIDEO_LECTURE" ""
              (Some [LessonView.mkVideoItem "Part 1" "https://v/1";
                     LessonView.mkVideoItem "Part 2" "https://v/2"])
              None false "")); try reflexivity.
  discriminate.
Defined.
